(** * Looking Glass host, D12 capture interface (d12.c)

    A shallow embedding of [host/platform/Windows/capture/D12/d12.c] and the
    properties of its adapter selection, queue bring-up, frame-resource
    cache, capture pipeline and pointer relay.

    Conventions.  C integers are [Z] with the conversions of the Windows
    x64 data model written out: [unsigned], [UINT] and [unsigned int] are 32
    bits, [UINT64], [size_t] and [uintptr_t] are 64 bits.  A pointer is its
    address; a pointer that may be [NULL] is an [option].  Calls into
    Direct3D, the capture backend, the frame buffer and the pointer buffer
    pool are recorded, in order, in a trace of events; what those calls
    answer is an argument of the function that makes them.  The [comRef]
    scopes, which release the local references of a function when it
    returns, and the debug log are not traced. *)

From Stdlib Require Import ZArith List Bool Lia.
From stdpp Require Import base list.

Local Open Scope Z_scope.

(** ** Machine integers *)

(** Conversion to a 32 bit unsigned integer. *)
Definition to_uint (z : Z) : Z := z mod 2 ^ 32.

(** Conversion to a 64 bit unsigned integer. *)
Definition to_uint64 (z : Z) : Z := z mod 2 ^ 64.

Definition UINT_MAX : Z := 2 ^ 32 - 1.

Definition HRESULT := Z.

(** [FAILED(hr)] is [hr < 0]. *)
Definition FAILED (hr : HRESULT) : bool := hr <? 0.

Definition S_OK : HRESULT := 0.
Definition E_INVALIDARG : HRESULT := -2147024809.
Definition E_OUTOFMEMORY : HRESULT := -2147024882.

(** The [min] macro of the Windows headers. *)
Definition min (a b : Z) : Z := if a <? b then a else b.

(** ** Direct3D 12 data *)

Record D3D12_RESOURCE_DESC := {
  Dimension          : Z;
  Alignment          : Z;
  Width              : Z;   (* UINT64 *)
  Height             : Z;   (* UINT *)
  DepthOrArraySize   : Z;
  MipLevels          : Z;
  Format             : Z;   (* DXGI_FORMAT *)
  SampleDesc_Count   : Z;
  SampleDesc_Quality : Z;
  Layout             : Z;
  Flags              : Z
}.

Definition D3D12_RESOURCE_DIMENSION_BUFFER : Z := 1.
Definition D3D12_RESOURCE_DIMENSION_TEXTURE2D : Z := 3.
Definition D3D12_DEFAULT_RESOURCE_PLACEMENT_ALIGNMENT : Z := 65536.
Definition DXGI_FORMAT_UNKNOWN : Z := 0.
Definition DXGI_FORMAT_B8G8R8A8_UNORM : Z := 87.
Definition D3D12_TEXTURE_LAYOUT_ROW_MAJOR : Z := 1.
Definition D3D12_RESOURCE_FLAG_ALLOW_CROSS_ADAPTER : Z := 16.
Definition D3D12_RESOURCE_STATE_COPY_DEST : Z := 1024.

(** A resource is known by its address; [_ID3D12Resource_GetDesc] reads its
    description. *)
Record ID3D12Resource := {
  res_ptr  : Z;
  res_desc : D3D12_RESOURCE_DESC
}.

Definition _ID3D12Resource_GetDesc (r : ID3D12Resource) : D3D12_RESOURCE_DESC :=
  res_desc r.

Record D3D12_SUBRESOURCE_FOOTPRINT := {
  fp_Format   : Z;
  fp_Width    : Z;   (* UINT *)
  fp_Height   : Z;   (* UINT *)
  fp_Depth    : Z;   (* UINT *)
  fp_RowPitch : Z    (* UINT *)
}.

Record D3D12_PLACED_SUBRESOURCE_FOOTPRINT := {
  Offset    : Z;
  Footprint : D3D12_SUBRESOURCE_FOOTPRINT
}.

(** The two kinds of copy location [d12_getFrame] builds. *)
Inductive D3D12_TEXTURE_COPY_LOCATION :=
| SubresourceIndex (pResource : ID3D12Resource) (index : Z)
| PlacedFootprint (pResource : ID3D12Resource)
                  (footprint : D3D12_PLACED_SUBRESOURCE_FOOTPRINT).

(** ** The capture interface's own data *)

(** A [FrameBuffer *], by address. *)
Definition FrameBuffer := Z.

(** Modelled from the spec: [CaptureResult] is declared in
    [interface/capture.h], which is not among the sources.  The statuses are
    the spec's Ok, Timeout and Error; [d12.c] names [CAPTURE_RESULT_OK] and
    [CAPTURE_RESULT_ERROR]. *)
Inductive CaptureResult :=
| CAPTURE_RESULT_OK
| CAPTURE_RESULT_TIMEOUT
| CAPTURE_RESULT_ERROR.

Definition CaptureResult_eqb (a b : CaptureResult) : bool :=
  match a, b with
  | CAPTURE_RESULT_OK, CAPTURE_RESULT_OK
  | CAPTURE_RESULT_TIMEOUT, CAPTURE_RESULT_TIMEOUT
  | CAPTURE_RESULT_ERROR, CAPTURE_RESULT_ERROR => true
  | _, _ => false
  end.

(** One element of [this->frameBuffers]. *)
Record FrameBufferSlot := {
  fb_size        : Z;                       (* unsigned *)
  fb_frameBuffer : FrameBuffer;
  fb_resource    : option ID3D12Resource
}.

(** [struct D12Interface], the fields the embedded functions use. *)
Record D12Interface := {
  ivshmemBase  : Z;
  lastFormat   : D3D12_RESOURCE_DESC;
  formatVer    : Z;                         (* unsigned *)
  debug        : bool;
  frameBuffers : list FrameBufferSlot
}.

Definition zero_desc : D3D12_RESOURCE_DESC :=
  {| Dimension := 0; Alignment := 0; Width := 0; Height := 0;
     DepthOrArraySize := 0; MipLevels := 0; Format := 0;
     SampleDesc_Count := 0; SampleDesc_Quality := 0; Layout := 0;
     Flags := 0 |}.

Definition zero_slot : FrameBufferSlot :=
  {| fb_size := 0; fb_frameBuffer := 0; fb_resource := None |}.

(** What [calloc] in [d12_create] leaves: every field zero, [frameBuffers]
    slots after the structure. *)
Definition d12_create (frameBuffers : nat) : D12Interface :=
  {| ivshmemBase := 0; lastFormat := zero_desc; formatVer := 0;
     debug := false; frameBuffers := replicate frameBuffers zero_slot |}.

(** ** Events *)

Inductive Event :=
| EvCreatePlacedResource (heapOffset : Z) (desc : D3D12_RESOURCE_DESC)
                         (initialState : Z) (hr : HRESULT)
| EvAddRef (r : ID3D12Resource)
| EvCopyTextureRegion (dst : D3D12_TEXTURE_COPY_LOCATION) (dstX dstY dstZ : Z)
                      (src : D3D12_TEXTURE_COPY_LOCATION)
| EvBackendSync (r : CaptureResult)
| EvCommandGroupExecute
| EvSetWritePtr (frameBuffer : FrameBuffer) (size : Z).

Record World := {
  this  : D12Interface;
  trace : list Event
}.

Definition emit (e : Event) (w : World) : World :=
  {| this := this w; trace := trace w ++ [e] |}.

Definition set_frameBuffer (i : nat) (fb : FrameBufferSlot) (w : World) : World :=
  {| this := {| ivshmemBase := ivshmemBase (this w);
                lastFormat := lastFormat (this w);
                formatVer := formatVer (this w);
                debug := debug (this w);
                frameBuffers := <[i := fb]> (frameBuffers (this w)) |};
     trace := trace w |}.

(** ** The collaborators *)

(** The device: what [ID3D12Device3_CreatePlacedResource] answers for a heap
    offset and a description.  The resource is meaningful when the result
    has not [FAILED]. *)
Definition Device := Z -> D3D12_RESOURCE_DESC -> HRESULT * ID3D12Resource.

(** The capture backend, as it answers during one call: [d12_backendFetch]
    per frame buffer index ([None] is [NULL]) and [d12_backendSync]. *)
Record D12Backend := {
  fetch : nat -> option ID3D12Resource;
  sync  : CaptureResult
}.

(** ** Frame resource cache: [d12_frameBufferToResource] *)

Section Cache.

(** [framebuffer_get_data], from the frame buffer module: the address of the
    data of a frame buffer. *)
Variable framebuffer_get_data : FrameBuffer -> Z.

Variable device : Device.

(** [fb->resource && fb->frameBuffer == frameBuffer && fb->size >= size] *)
Definition is_setup (fb : FrameBufferSlot) (frameBuffer : FrameBuffer)
    (size : Z) : bool :=
  match fb_resource fb with
  | Some _ => (fb_frameBuffer fb =? frameBuffer) && (fb_size fb >=? size)
  | None => false
  end.

Definition placed_desc (size : Z) : D3D12_RESOURCE_DESC :=
  {| Dimension          := D3D12_RESOURCE_DIMENSION_BUFFER;
     Alignment          := D3D12_DEFAULT_RESOURCE_PLACEMENT_ALIGNMENT;
     Width              := size;
     Height             := 1;
     DepthOrArraySize   := 1;
     MipLevels          := 1;
     Format             := DXGI_FORMAT_UNKNOWN;
     SampleDesc_Count   := 1;
     SampleDesc_Quality := 0;
     Layout             := D3D12_TEXTURE_LAYOUT_ROW_MAJOR;
     Flags              := D3D12_RESOURCE_FLAG_ALLOW_CROSS_ADAPTER |}.

(** [(uintptr_t)framebuffer_get_data(frameBuffer) - (uintptr_t)this->ivshmemBase] *)
Definition heap_offset (frameBuffer : FrameBuffer) (base : Z) : Z :=
  to_uint64 (framebuffer_get_data frameBuffer - base).

(** The result is [None] when [frameBufferIndex] is outside
    [this->frameBuffers], where the C code reads past the array; otherwise
    the returned pointer ([None] for [NULL]) and the world after the call. *)
Definition d12_frameBufferToResource (frameBufferIndex : nat)
    (frameBuffer : FrameBuffer) (size : Z) (w : World)
    : option (option ID3D12Resource * World) :=
  match frameBuffers (this w) !! frameBufferIndex with
  | None => None
  | Some fb =>
    if is_setup fb frameBuffer size then
      (* nothing to do if the resource is already setup and is big enough *)
      match fb_resource fb with
      | Some result => Some (Some result, emit (EvAddRef result) w)
      | None => Some (None, w)
      end
    else
      let fb1 := {| fb_size := size; fb_frameBuffer := frameBuffer;
                    fb_resource := fb_resource fb |} in
      let w1 := set_frameBuffer frameBufferIndex fb1 w in
      let desc := placed_desc size in
      let off := heap_offset frameBuffer (ivshmemBase (this w1)) in
      let '(hr, resource) := device off desc in
      let w2 := emit (EvCreatePlacedResource off desc
                        D3D12_RESOURCE_STATE_COPY_DEST hr) w1 in
      if FAILED hr then Some (None, w2)
      else
        (* cache the resource *)
        let fb2 := {| fb_size := size; fb_frameBuffer := frameBuffer;
                      fb_resource := Some resource |} in
        let w3 := set_frameBuffer frameBufferIndex fb2 w2 in
        Some (Some resource, emit (EvAddRef resource) w3)
  end.

End Cache.

(** ** Capture pipeline: [d12_waitFrame] and [d12_getFrame] *)

(** Modelled from the spec: [CaptureFormat] and [CaptureRotation] are
    declared in [interface/capture.h], which is not among the sources.
    [d12.c] names the 32 bit B-G-R-A format and the absence of rotation; the
    other constructors stand for the values it does not name. *)
Inductive CaptureFormat :=
| CAPTURE_FMT_BGRA
| CAPTURE_FMT_RGBA.

Inductive CaptureRotation :=
| CAPTURE_ROT_0
| CAPTURE_ROT_90
| CAPTURE_ROT_180
| CAPTURE_ROT_270.

(** Modelled from the spec: [CaptureFrame] is declared in
    [interface/capture.h], which is not among the sources.  The fields are
    the ones [d12_waitFrame] assigns, the descriptor of the spec; the integer
    fields are taken as [unsigned int]. *)
Record CaptureFrame := {
  frame_formatVer  : Z;
  screenWidth      : Z;
  screenHeight     : Z;
  dataWidth        : Z;
  dataHeight       : Z;
  frameWidth       : Z;
  frameHeight      : Z;
  truncated        : bool;
  pitch            : Z;
  stride           : Z;
  format           : CaptureFormat;
  hdr              : bool;
  hdrPQ            : bool;
  rotation         : CaptureRotation;
  damageRectsCount : Z
}.

(** [desc.Width != lastFormat.Width || desc.Height != lastFormat.Height ||
    desc.Format != lastFormat.Format] *)
Definition format_changed (desc lastFormat : D3D12_RESOURCE_DESC) : bool :=
  negb (Width desc =? Width lastFormat)
  || negb (Height desc =? Height lastFormat)
  || negb (Format desc =? Format lastFormat).

(** [++this->formatVer; memcpy(&this->lastFormat, &desc, sizeof(desc));] *)
Definition bump_format (desc : D3D12_RESOURCE_DESC) (t : D12Interface)
    : D12Interface :=
  {| ivshmemBase := ivshmemBase t;
     lastFormat := desc;
     formatVer := to_uint (formatVer t + 1);
     debug := debug t;
     frameBuffers := frameBuffers t |}.

(** The result is [None] when [desc.Width * 4] is zero, where the C code
    divides by zero. *)
Definition d12_waitFrame (backend : D12Backend) (frameBufferIndex : nat)
    (frame : CaptureFrame) (maxFrameSize : Z) (t : D12Interface)
    : option (CaptureResult * CaptureFrame * D12Interface) :=
  match fetch backend frameBufferIndex with
  | None => Some (CAPTURE_RESULT_ERROR, frame, t)
  | Some src =>
    let desc := _ID3D12Resource_GetDesc src in
    let t1 := if format_changed desc (lastFormat t)
              then bump_format desc t else t in
    let rowBytes := to_uint64 (Width desc * 4) in
    if rowBytes =? 0 then None
    else
      let maxRows := to_uint (maxFrameSize / rowBytes) in
      Some (CAPTURE_RESULT_OK,
            {| frame_formatVer  := formatVer t1;
               screenWidth      := to_uint (Width desc);
               screenHeight     := Height desc;
               dataWidth        := to_uint (Width desc);
               dataHeight       := min maxRows (Height desc);
               frameWidth       := to_uint (Width desc);
               frameHeight      := Height desc;
               truncated        := maxRows <? Height desc;
               pitch            := to_uint rowBytes;
               stride           := to_uint (Width desc);
               format           := CAPTURE_FMT_BGRA;
               hdr              := false;
               hdrPQ            := false;
               rotation         := CAPTURE_ROT_0;
               damageRectsCount := 0 |},
            t1)
  end.

(** A [d12_waitFrame] call: the backend as it answers then, the frame buffer
    index and [maxFrameSize]. *)
Record WaitCall := {
  wc_backend      : D12Backend;
  wc_index        : nat;
  wc_maxFrameSize : Z
}.

(** A sequence of [d12_waitFrame] calls, each on the state the one before
    left. *)
Fixpoint waitFrames (calls : list WaitCall) (frame : CaptureFrame)
    (t : D12Interface) : option (CaptureFrame * D12Interface) :=
  match calls with
  | [] => Some (frame, t)
  | c :: rest =>
    match d12_waitFrame (wc_backend c) (wc_index c) frame (wc_maxFrameSize c) t with
    | None => None
    | Some (_, frame', t') => waitFrames rest frame' t'
    end
  end.

Section GetFrame.

Variable framebuffer_get_data : FrameBuffer -> Z.
Variable device : Device.

(** [dstLoc] of [d12_getFrame]. *)
Definition dst_footprint (desc : D3D12_RESOURCE_DESC)
    : D3D12_PLACED_SUBRESOURCE_FOOTPRINT :=
  {| Offset := 0;
     Footprint := {| fp_Format   := Format desc;
                     fp_Width    := to_uint (Width desc);
                     fp_Height   := Height desc;
                     fp_Depth    := 1;
                     fp_RowPitch := to_uint (to_uint64 (Width desc * 4)) |} |}.

(** [desc.Height * desc.Width * 4], in [UINT64]. *)
Definition frame_bytes (desc : D3D12_RESOURCE_DESC) : Z :=
  to_uint64 (to_uint64 (Height desc * Width desc) * 4).

(** The result is [None] where [d12_frameBufferToResource] is. *)
Definition d12_getFrame (backend : D12Backend) (frameBufferIndex : nat)
    (frameBuffer : FrameBuffer) (maxFrameSize : Z) (w : World)
    : option (CaptureResult * World) :=
  match fetch backend frameBufferIndex with
  | None => Some (CAPTURE_RESULT_ERROR, w)
  | Some src =>
    match d12_frameBufferToResource framebuffer_get_data device
            frameBufferIndex frameBuffer (to_uint maxFrameSize) w with
    | None => None
    | Some (None, w1) => Some (CAPTURE_RESULT_ERROR, w1)
    | Some (Some dst, w1) =>
      (* copy into the framebuffer resource *)
      let desc := _ID3D12Resource_GetDesc src in
      let srcLoc := SubresourceIndex src 0 in
      let dstLoc := PlacedFootprint dst (dst_footprint desc) in
      let w2 := emit (EvCopyTextureRegion dstLoc 0 0 0 srcLoc) w1 in
      (* allow the backend to insert a fence into the command queue *)
      let result := sync backend in
      let w3 := emit (EvBackendSync result) w2 in
      if negb (CaptureResult_eqb result CAPTURE_RESULT_OK) then Some (result, w3)
      else
        let w4 := emit EvCommandGroupExecute w3 in
        let w5 := emit (EvSetWritePtr frameBuffer (frame_bytes desc)) w4 in
        Some (CAPTURE_RESULT_OK, w5)
    end
  end.

End GetFrame.

(** Whether a run of events submits the command group, and whether it moves
    a write pointer. *)
Definition is_execute (e : Event) : bool :=
  match e with EvCommandGroupExecute => true | _ => false end.

Definition is_set_write_ptr (e : Event) : bool :=
  match e with EvSetWritePtr _ _ => true | _ => false end.

Definition is_create (e : Event) : bool :=
  match e with EvCreatePlacedResource _ _ _ _ => true | _ => false end.

Definition submits (evs : list Event) : bool := existsb is_execute evs.
Definition advances (evs : list Event) : bool := existsb is_set_write_ptr evs.
Definition creates (evs : list Event) : bool := existsb is_create evs.

(** ** Adapter and output selection: [d12_enumerateDevices] *)

Record DXGI_ADAPTER_DESC1 := {
  VendorId              : Z;   (* UINT *)
  DeviceId              : Z;   (* UINT *)
  DedicatedVideoMemory  : Z;
  DedicatedSystemMemory : Z;
  SharedSystemMemory    : Z
}.

(** An output, with what [IDXGIOutput_GetDesc] reports of it. *)
Record IDXGIOutput := {
  output_ptr        : Z;
  AttachedToDesktop : bool
}.

(** An adapter, with what [IDXGIAdapter1_GetDesc1] answers and the outputs
    [IDXGIAdapter1_EnumOutputs] yields, in order, before
    [DXGI_ERROR_NOT_FOUND]. *)
Record IDXGIAdapter1 := {
  adapter_ptr : Z;
  GetDesc1    : HRESULT * DXGI_ADAPTER_DESC1;
  EnumOutputs : list IDXGIOutput
}.

(** The factory: the adapters [IDXGIFactory2_EnumAdapters1] yields, in
    order, before [DXGI_ERROR_NOT_FOUND]. *)
Definition IDXGIFactory2 := list IDXGIAdapter1.

(** Devices without D3D support: (VID, PID). *)
Definition blacklist : list (Z * Z) :=
  [ (0x1414, 0x008c)    (* Microsoft Basic Render Driver *)
  ; (0x1b36, 0x000d)    (* QXL *)
  ; (0x1234, 0x1111) ]. (* QEMU Standard VGA *)

(** The loop over [blacklist] that sets [skip]. *)
Definition skip (adapterDesc : DXGI_ADAPTER_DESC1) : bool :=
  existsb (fun b => (VendorId adapterDesc =? fst b)
                    && (DeviceId adapterDesc =? snd b)) blacklist.

(** The loop over the outputs of one adapter: [*output] when it ends. *)
Fixpoint first_attached (outputs : list IDXGIOutput) : option IDXGIOutput :=
  match outputs with
  | [] => None
  | output :: rest =>
    if AttachedToDesktop output then Some output   (* break *)
    else first_attached rest                       (* comRef_release(output) *)
  end.

(** The result is [None] where the C function returns [false], and the
    adapter and output it leaves in [*adapter] and [*output] where it
    returns [true]. *)
Fixpoint d12_enumerateDevices (factory : IDXGIFactory2)
    : option (IDXGIAdapter1 * IDXGIOutput) :=
  match factory with
  | [] => None                (* Failed to locate a valid output device *)
  | adapter :: rest =>
    let '(hr, adapterDesc) := GetDesc1 adapter in
    if FAILED hr then None    (* Failed to get the device description *)
    else if skip adapterDesc then d12_enumerateDevices rest
    else
      match first_attached (EnumOutputs adapter) with
      | Some output => Some (adapter, output)
      | None => d12_enumerateDevices rest
      end
  end.

(** The (VendorId, DeviceId) pair of an adapter, when it has a description. *)
Definition blacklisted (a : IDXGIAdapter1) : bool := skip (snd (GetDesc1 a)).

(** ** Device and queue bring-up: [d12_init] *)

Definition D3D12_COMMAND_LIST_TYPE_COPY : Z := 3.
Definition D3D12_COMMAND_QUEUE_PRIORITY_NORMAL : Z := 0.
Definition D3D12_COMMAND_QUEUE_PRIORITY_HIGH : Z := 100.
Definition D3D12_COMMAND_QUEUE_PRIORITY_GLOBAL_REALTIME : Z := 10000.
Definition D3D12_COMMAND_QUEUE_FLAG_NONE : Z := 0.

Record D3D12_COMMAND_QUEUE_DESC := {
  Type_    : Z;
  Priority : Z;
  q_Flags  : Z
}.

(** The initial value of the static [queueDesc] of [d12_init]. *)
Definition queueDesc_init : D3D12_COMMAND_QUEUE_DESC :=
  {| Type_    := D3D12_COMMAND_LIST_TYPE_COPY;
     Priority := D3D12_COMMAND_QUEUE_PRIORITY_GLOBAL_REALTIME;
     q_Flags  := D3D12_COMMAND_QUEUE_FLAG_NONE |}.

Definition set_Priority (p : Z) (d : D3D12_COMMAND_QUEUE_DESC)
    : D3D12_COMMAND_QUEUE_DESC :=
  {| Type_ := Type_ d; Priority := p; q_Flags := q_Flags d |}.

(** What the platform answers during one [d12_init]. *)
Record InitEnv := {
  CreateDXGIFactory2          : HRESULT;
  factory                     : IDXGIFactory2;
  D3D12GetDebugInterface      : HRESULT;
  D3D12CreateDevice           : HRESULT;
  CreateCommandQueue          : D3D12_COMMAND_QUEUE_DESC -> HRESULT;
  d12_commandGroupCreate      : bool;
  OpenExistingHeapFromAddress : HRESULT;
  heapDesc_Alignment          : Z;   (* UINT64 *)
  d12_backendInit             : bool
}.

(** A call of [ID3D12Device3_CreateCommandQueue] and its answer. *)
Record QueueAttempt := {
  attempt_desc : D3D12_COMMAND_QUEUE_DESC;
  attempt_hr   : HRESULT
}.

(** The [retryCreateCommandQueue] loop.  Each turn of [fuel] is one pass from
    the label; [None] is a pass count that did not reach the end.  The
    result is the last [hr], the static [queueDesc] and the calls made. *)
Fixpoint retryCreateCommandQueue (fuel : nat)
    (create : D3D12_COMMAND_QUEUE_DESC -> HRESULT)
    (queueDesc : D3D12_COMMAND_QUEUE_DESC) (calls : list QueueAttempt)
    : option (HRESULT * D3D12_COMMAND_QUEUE_DESC * list QueueAttempt) :=
  match fuel with
  | O => None
  | S fuel' =>
    let hr := create queueDesc in
    let calls' := calls ++ [{| attempt_desc := queueDesc; attempt_hr := hr |}] in
    if FAILED hr then
      if Priority queueDesc =? D3D12_COMMAND_QUEUE_PRIORITY_GLOBAL_REALTIME then
        (* Failed to create queue with real time priority *)
        retryCreateCommandQueue fuel' create
          (set_Priority D3D12_COMMAND_QUEUE_PRIORITY_HIGH queueDesc) calls'
      else Some (hr, queueDesc, calls')
    else Some (hr, queueDesc, calls')
  end.

(** Where [d12_init] stopped. *)
Inductive InitStage :=
| FactoryFailed
| NoDevice
| DebugInterfaceFailed
| DeviceFailed
| QueueFailed
| CommandGroupFailed
| HeapFailed
| BackendFailed
| InitDone.

Record InitOutcome := {
  init_result    : bool;
  init_stage     : InitStage;
  init_alignSize : Z;                          (* unsigned *)
  init_queueDesc : D3D12_COMMAND_QUEUE_DESC;   (* the static, after the call *)
  init_this      : D12Interface;
  init_calls     : list QueueAttempt
}.

Definition set_ivshmemBase (base : Z) (t : D12Interface) : D12Interface :=
  {| ivshmemBase := base; lastFormat := lastFormat t;
     formatVer := formatVer t; debug := debug t;
     frameBuffers := frameBuffers t |}.

(** [d12_init], with the static [queueDesc] as it stands when the call
    starts.  [alignSize] is an [unsigned *]: the [UINT64] alignment of the
    heap is narrowed when it is stored.  The result is [None] where the
    queue loop is. *)
Definition d12_init (env : InitEnv) (ivshmemBase alignSize : Z)
    (queueDesc : D3D12_COMMAND_QUEUE_DESC) (t : D12Interface)
    : option InitOutcome :=
  let stop stage qd t' calls :=
    Some {| init_result := false; init_stage := stage;
            init_alignSize := alignSize; init_queueDesc := qd;
            init_this := t'; init_calls := calls |} in
  if FAILED (CreateDXGIFactory2 env) then stop FactoryFailed queueDesc t []
  else
    match d12_enumerateDevices (factory env) with
    | None => stop NoDevice queueDesc t []
    | Some _ =>
      if debug t && FAILED (D3D12GetDebugInterface env)
      then stop DebugInterfaceFailed queueDesc t []
      else if FAILED (D3D12CreateDevice env) then stop DeviceFailed queueDesc t []
      else
        match retryCreateCommandQueue 2 (CreateCommandQueue env) queueDesc [] with
        | None => None
        | Some (hr, queueDesc', calls) =>
          if FAILED hr then stop QueueFailed queueDesc' t calls
          else if negb (d12_commandGroupCreate env)
          then stop CommandGroupFailed queueDesc' t calls
          else
            let t1 := set_ivshmemBase ivshmemBase t in
            if FAILED (OpenExistingHeapFromAddress env)
            then stop HeapFailed queueDesc' t1 calls
            else if negb (d12_backendInit env) then
              Some {| init_result := false; init_stage := BackendFailed;
                      init_alignSize := to_uint (heapDesc_Alignment env);
                      init_queueDesc := queueDesc'; init_this := t1;
                      init_calls := calls |}
            else
              Some {| init_result := true; init_stage := InitDone;
                      init_alignSize := to_uint (heapDesc_Alignment env);
                      init_queueDesc := queueDesc'; init_this := t1;
                      init_calls := calls |}
        end
    end.

(** ** Pointer shape relay: [d12_updatePointer] *)

(** Modelled from the spec: [CapturePointer] is declared in
    [interface/capture.h], which is not among the sources.  It is the
    spec's pointer event, a move and a shape-change flag; [d12.c] reads and
    writes [shapeUpdate] only. *)
Record CapturePointer := {
  positionUpdate : bool;
  pointer_x      : Z;
  pointer_y      : Z;
  visible        : bool;
  shapeUpdate    : bool
}.

(** What [getPointerBufferFn(&dst, &dstSize)] answers: its result, and what
    the locals [dst] and [dstSize] hold when it returns.  The locals are not
    initialised, so where the function fails without writing them these are
    whatever the stack held. *)
Record PointerBuffer := {
  pb_ok      : bool;
  pb_dst     : Z;
  pb_dstSize : Z   (* UINT *)
}.

Inductive PointerEvent :=
| EvGetPointerBuffer (ok : bool)
| EvMemcpy (dst src : Z) (n : Z)
| EvPostPointerBuffer (pointer : CapturePointer).

Definition clear_shapeUpdate (p : CapturePointer) : CapturePointer :=
  {| positionUpdate := positionUpdate p; pointer_x := pointer_x p;
     pointer_y := pointer_y p;
     visible := visible p; shapeUpdate := false |}.

(** The result is [*pointer] when the function returns and the calls it
    made, in order. *)
Definition d12_updatePointer (getPointerBufferFn : PointerBuffer)
    (pointer : CapturePointer) (shape : Z) (shapeSize : Z)
    : CapturePointer * list PointerEvent :=
  if shapeUpdate pointer then
    let dst := pb_dst getPointerBufferFn in
    let dstSize := pb_dstSize getPointerBufferFn in
    let pointer1 := if negb (pb_ok getPointerBufferFn)
                    then clear_shapeUpdate pointer else pointer in
    let copySize := min dstSize shapeSize in
    (pointer1, [EvGetPointerBuffer (pb_ok getPointerBufferFn);
                EvMemcpy dst shape copySize;
                EvPostPointerBuffer pointer1])
  else (pointer, [EvPostPointerBuffer pointer]).

(** The bytes the calls copy, and how often they hand an event over. *)
Definition bytes_copied (evs : list PointerEvent) : Z :=
  fold_right (fun e acc => match e with EvMemcpy _ _ n => n + acc | _ => acc end)
             0 evs.

Definition posted (evs : list PointerEvent) : list CapturePointer :=
  flat_map (fun e => match e with EvPostPointerBuffer p => [p] | _ => [] end) evs.

(** ** Sample data

    Concrete collaborators and states, used to run the functions above. *)

(** A frame buffer whose data follows a 64 byte header. *)
Definition sample_get_data (frameBuffer : FrameBuffer) : Z := frameBuffer + 64.

Definition texture (ptr width height fmt : Z) : ID3D12Resource :=
  {| res_ptr := ptr;
     res_desc := {| Dimension := D3D12_RESOURCE_DIMENSION_TEXTURE2D;
                    Alignment := 0; Width := width; Height := height;
                    DepthOrArraySize := 1; MipLevels := 1; Format := fmt;
                    SampleDesc_Count := 1; SampleDesc_Quality := 0;
                    Layout := 0; Flags := 0 |} |}.

(** A device that places every resource it is asked for. *)
Definition device_ok : Device :=
  fun off desc => (S_OK, {| res_ptr := 0x70000000 + off; res_desc := desc |}).

(** A device that places none. *)
Definition device_fail : Device :=
  fun off desc => (E_OUTOFMEMORY, {| res_ptr := 0; res_desc := zero_desc |}).

Definition sample_base : Z := 0x100000000.
Definition bufferA : FrameBuffer := 0x100010000.
Definition bufferB : FrameBuffer := 0x100810000.

Definition resourceA : ID3D12Resource :=
  {| res_ptr := 0x70010040; res_desc := placed_desc 4096 |}.

Definition slotA : FrameBufferSlot :=
  {| fb_size := 4096; fb_frameBuffer := bufferA; fb_resource := Some resourceA |}.

Definition resourceB (size : Z) : ID3D12Resource :=
  {| res_ptr := 0x70810040; res_desc := placed_desc size |}.

(** One slot, holding [resourceA] of 4096 bytes for [bufferA]. *)
Definition world_cached : World :=
  {| this := {| ivshmemBase := sample_base; lastFormat := zero_desc;
                formatVer := 0; debug := false;
                frameBuffers := [ slotA ] |};
     trace := [] |}.

(** One slot, as [d12_create] leaves it. *)
Definition world_fresh : World :=
  {| this := set_ivshmemBase sample_base (d12_create 1); trace := [] |}.

(** A backend that has a 1920 by 1080 BGRA frame for index 0 only. *)
Definition frame1080 : ID3D12Resource :=
  texture 0x5000 1920 1080 DXGI_FORMAT_B8G8R8A8_UNORM.

Definition backend_ready (s : CaptureResult) : D12Backend :=
  {| fetch := fun i => match i with O => Some frame1080 | _ => None end;
     sync := s |}.

Definition backend_empty : D12Backend :=
  {| fetch := fun _ => None; sync := CAPTURE_RESULT_OK |}.

Definition frame_blank : CaptureFrame :=
  {| frame_formatVer := 0; screenWidth := 0; screenHeight := 0;
     dataWidth := 0; dataHeight := 0; frameWidth := 0; frameHeight := 0;
     truncated := false; pitch := 0; stride := 0; format := CAPTURE_FMT_RGBA;
     hdr := false; hdrPQ := false; rotation := CAPTURE_ROT_0;
     damageRectsCount := 0 |}.

(** A backend that has one resource, for every index. *)
Definition backend_with (r : ID3D12Resource) : D12Backend :=
  {| fetch := fun _ => Some r; sync := CAPTURE_RESULT_OK |}.

Definition frame720 : ID3D12Resource :=
  texture 0x6000 1280 720 DXGI_FORMAT_B8G8R8A8_UNORM.

(** A texture of one pixel. *)
Definition frame1 : ID3D12Resource :=
  texture 0x4000 1 1 DXGI_FORMAT_B8G8R8A8_UNORM.

Definition call1080 : WaitCall :=
  {| wc_backend := backend_with frame1080; wc_index := 0;
     wc_maxFrameSize := 8388608 |}.

Definition call720 : WaitCall :=
  {| wc_backend := backend_with frame720; wc_index := 0;
     wc_maxFrameSize := 8388608 |}.

(** [n] calls that see [a] and [b] in turn, [a] first. *)
Fixpoint alternating (n : nat) (a b : WaitCall) : list WaitCall :=
  match n with
  | O => []
  | S k => a :: alternating k b a
  end.

(** The interface after 4294967295 format changes, the last one to
    [frame720]. *)
Definition interface_at_max : D12Interface :=
  {| ivshmemBase := sample_base; lastFormat := res_desc frame720;
     formatVer := UINT_MAX; debug := false; frameBuffers := [zero_slot] |}.

(** ** Format transitions of a sequence of calls *)

(** The calls of a sequence that fetch a resource whose width, height or
    format is not the one observed last, starting from [last]. *)
Fixpoint format_transitions (last : D3D12_RESOURCE_DESC)
    (calls : list WaitCall) : Z :=
  match calls with
  | [] => 0
  | c :: rest =>
    match fetch (wc_backend c) (wc_index c) with
    | None => format_transitions last rest
    | Some src =>
      if format_changed (res_desc src) last
      then 1 + format_transitions (res_desc src) rest
      else format_transitions last rest
    end
  end.

(** A call that does not divide by zero. *)
Definition call_defined (c : WaitCall) : Prop :=
  forall src, fetch (wc_backend c) (wc_index c) = Some src ->
              to_uint64 (Width (res_desc src) * 4) <> 0.

(** Adapters: the Microsoft Basic Render Driver with an attached output, a
    GPU with a detached and an attached output, a GPU without outputs. *)
Definition output (ptr : Z) (attached : bool) : IDXGIOutput :=
  {| output_ptr := ptr; AttachedToDesktop := attached |}.

Definition adapter (ptr vid pid : Z) (outputs : list IDXGIOutput)
    : IDXGIAdapter1 :=
  {| adapter_ptr := ptr;
     GetDesc1 := (S_OK, {| VendorId := vid; DeviceId := pid;
                           DedicatedVideoMemory := 0;
                           DedicatedSystemMemory := 0;
                           SharedSystemMemory := 0 |});
     EnumOutputs := outputs |}.

Definition basic_render : IDXGIAdapter1 :=
  adapter 0xA000 0x1414 0x008c [output 0xA100 true].

Definition gpu : IDXGIAdapter1 :=
  adapter 0xB000 0x10de 0x2684 [output 0xB100 false; output 0xB200 true].

Definition headless_gpu : IDXGIAdapter1 :=
  adapter 0xC000 0x1002 0x73bf [].

(** A platform on which every step of [d12_init] succeeds, but for the
    answer [create] to [ID3D12Device3_CreateCommandQueue]. *)
Definition platform (create : D3D12_COMMAND_QUEUE_DESC -> HRESULT) : InitEnv :=
  {| CreateDXGIFactory2 := S_OK;
     factory := [basic_render; gpu];
     D3D12GetDebugInterface := S_OK;
     D3D12CreateDevice := S_OK;
     CreateCommandQueue := create;
     d12_commandGroupCreate := true;
     OpenExistingHeapFromAddress := S_OK;
     heapDesc_Alignment := 65536;
     d12_backendInit := true |}.

Definition accept_all : D3D12_COMMAND_QUEUE_DESC -> HRESULT := fun _ => S_OK.

Definition reject_all : D3D12_COMMAND_QUEUE_DESC -> HRESULT :=
  fun _ => E_INVALIDARG.

(** A driver that refuses the real time priority to this process. *)
Definition reject_realtime : D3D12_COMMAND_QUEUE_DESC -> HRESULT :=
  fun d => if Priority d =? D3D12_COMMAND_QUEUE_PRIORITY_GLOBAL_REALTIME
           then E_INVALIDARG else S_OK.

(** The priorities of the calls to [ID3D12Device3_CreateCommandQueue]. *)
Definition priorities (calls : list QueueAttempt) : list Z :=
  map (fun c => Priority (attempt_desc c)) calls.

(** A pointer event with a new shape, and the answers of the buffer pool:
    a buffer of 16384 bytes, and a failure that leaves the locals as the
    stack had them. *)
Definition shape_event : CapturePointer :=
  {| positionUpdate := true; pointer_x := 10; pointer_y := 20;
     visible := true; shapeUpdate := true |}.

Definition pool_ok : PointerBuffer :=
  {| pb_ok := true; pb_dst := 0x100900000; pb_dstSize := 16384 |}.

Definition pool_fail : PointerBuffer :=
  {| pb_ok := false; pb_dst := 0x7ffe1000; pb_dstSize := 64 |}.

(** A call of [ID3D12Device3_CreateCommandQueue] with the answer [create]
    gives it. *)
Definition attempt (create : D3D12_COMMAND_QUEUE_DESC -> HRESULT)
    (d : D3D12_COMMAND_QUEUE_DESC) : QueueAttempt :=
  {| attempt_desc := d; attempt_hr := create d |}.

(** The steps of [d12_init] before the queue succeed. *)
Definition reaches_queue (env : InitEnv) (t : D12Interface) : Prop :=
  FAILED (CreateDXGIFactory2 env) = false
  /\ is_Some (d12_enumerateDevices (factory env))
  /\ debug t && FAILED (D3D12GetDebugInterface env) = false
  /\ FAILED (D3D12CreateDevice env) = false.

(** ** Sequences of bring-ups *)

(** A [d12_init] call: what the platform answers during it, the shared
    memory base and the value of [*alignSize] on entry. *)
Record InitCall := {
  ic_env       : InitEnv;
  ic_base      : Z;
  ic_alignSize : Z
}.

(** The [d12_init] calls of one process, each on the static [queueDesc] and
    the interface the one before left; the outcomes, in order. *)
Fixpoint inits (calls : list InitCall) (queueDesc : D3D12_COMMAND_QUEUE_DESC)
    (t : D12Interface) : option (list InitOutcome) :=
  match calls with
  | [] => Some []
  | c :: rest =>
    match d12_init (ic_env c) (ic_base c) (ic_alignSize c) queueDesc t with
    | None => None
    | Some out =>
      match inits rest (init_queueDesc out) (init_this out) with
      | None => None
      | Some outs => Some (out :: outs)
      end
    end
  end.

(** All the calls to [ID3D12Device3_CreateCommandQueue] of a sequence of
    bring-ups, in order. *)
Definition all_calls (outs : list InitOutcome) : list QueueAttempt :=
  flat_map init_calls outs.

(** The world [w] with the interface [t]. *)
Definition with_this (t : D12Interface) (w : World) : World :=
  {| this := t; trace := trace w |}.

(** The interface [t] with the frame buffer slots [slots]. *)
Definition with_frameBuffers (slots : list FrameBufferSlot) (t : D12Interface)
    : D12Interface :=
  {| ivshmemBase := ivshmemBase t; lastFormat := lastFormat t;
     formatVer := formatVer t; debug := debug t; frameBuffers := slots |}.

(** An adapter whose description cannot be read. *)
Definition broken_adapter : IDXGIAdapter1 :=
  {| adapter_ptr := 0xD000;
     GetDesc1 := (E_INVALIDARG, {| VendorId := 0; DeviceId := 0;
                                   DedicatedVideoMemory := 0;
                                   DedicatedSystemMemory := 0;
                                   SharedSystemMemory := 0 |});
     EnumOutputs := [output 0xD100 true] |}.

(** ** Cached resources and their recorded size *)

(** The resource a slot holds is at least as wide as the size recorded for
    it. *)
Definition slot_covers (fb : FrameBufferSlot) : Prop :=
  forall r, fb_resource fb = Some r -> fb_size fb <= Width (res_desc r).

(** A device whose placed resources have the description asked for. *)
Definition device_faithful (device : Device) : Prop :=
  forall off desc,
    FAILED (fst (device off desc)) = false ->
    res_desc (snd (device off desc)) = desc.

(** * Properties *)

(** ** Machine integers *)

Lemma to_uint_small z : 0 <= z < 2 ^ 32 -> to_uint z = z.
Proof. intros H. unfold to_uint. apply Z.mod_small. exact H. Qed.

Lemma to_uint64_small z : 0 <= z < 2 ^ 64 -> to_uint64 z = z.
Proof. intros H. unfold to_uint64. apply Z.mod_small. exact H. Qed.

Lemma to_uint_range z : 0 <= to_uint z < 2 ^ 32.
Proof. unfold to_uint. apply Z.mod_pos_bound. lia. Qed.

Lemma to_uint64_range z : 0 <= to_uint64 z < 2 ^ 64.
Proof. unfold to_uint64. apply Z.mod_pos_bound. lia. Qed.

Lemma CaptureResult_eqb_eq a b : CaptureResult_eqb a b = true <-> a = b.
Proof. destruct a, b; simpl; split; congruence. Qed.

Lemma min_spec a b : min a b = Z.min a b.
Proof. unfold min. destruct (Z.ltb_spec a b); lia. Qed.

(** ** Frame resource cache *)

Section CacheFacts.

Variable get_data : FrameBuffer -> Z.
Variable device : Device.

Lemma is_setup_true fb frameBuffer size :
  is_setup fb frameBuffer size = true <->
  (exists r, fb_resource fb = Some r)
  /\ fb_frameBuffer fb = frameBuffer /\ size <= fb_size fb.
Proof.
  unfold is_setup. destruct (fb_resource fb) as [r|].
  - rewrite andb_true_iff, Z.eqb_eq, Z.geb_le. split.
    + intros [H1 H2]. eauto.
    + intros (_ & H1 & H2). auto.
  - split; [discriminate | intros ([r Hr] & _); discriminate].
Qed.

Lemma is_setup_false fb frameBuffer size :
  fb_frameBuffer fb <> frameBuffer \/ fb_size fb < size ->
  is_setup fb frameBuffer size = false.
Proof.
  intros H. destruct (is_setup fb frameBuffer size) eqn:E; [|reflexivity].
  apply is_setup_true in E. destruct E as (_ & H1 & H2). lia.
Qed.

(** A hit: the cached resource, one more reference, nothing else. *)
Lemma frameBufferToResource_hit i frameBuffer size w fb r :
  frameBuffers (this w) !! i = Some fb ->
  fb_resource fb = Some r ->
  is_setup fb frameBuffer size = true ->
  d12_frameBufferToResource get_data device i frameBuffer size w
  = Some (Some r, emit (EvAddRef r) w).
Proof.
  intros Hi Hr Hs. unfold d12_frameBufferToResource.
  rewrite Hi, Hs, Hr. reflexivity.
Qed.

(** A miss: size and frame buffer are written, then the device is asked. *)
Lemma frameBufferToResource_miss i frameBuffer size w fb :
  frameBuffers (this w) !! i = Some fb ->
  is_setup fb frameBuffer size = false ->
  let off := heap_offset get_data frameBuffer (ivshmemBase (this w)) in
  let hr := fst (device off (placed_desc size)) in
  let r := snd (device off (placed_desc size)) in
  let w1 := set_frameBuffer i
              {| fb_size := size; fb_frameBuffer := frameBuffer;
                 fb_resource := fb_resource fb |} w in
  let w2 := emit (EvCreatePlacedResource off (placed_desc size)
                    D3D12_RESOURCE_STATE_COPY_DEST hr) w1 in
  d12_frameBufferToResource get_data device i frameBuffer size w
  = if FAILED hr then Some (None, w2)
    else Some (Some r,
               emit (EvAddRef r)
                 (set_frameBuffer i
                    {| fb_size := size; fb_frameBuffer := frameBuffer;
                       fb_resource := Some r |} w2)).
Proof.
  intros Hi Hs. cbv zeta. unfold d12_frameBufferToResource.
  rewrite Hi, Hs. cbn [this set_frameBuffer ivshmemBase].
  destruct (device _ _) as [hr r]. reflexivity.
Qed.

Lemma frameBufferToResource_defined i frameBuffer size w :
  (i < length (frameBuffers (this w)))%nat ->
  is_Some (d12_frameBufferToResource get_data device i frameBuffer size w).
Proof.
  intros Hi. apply lookup_lt_is_Some in Hi. destruct Hi as [fb Hfb].
  destruct (is_setup fb frameBuffer size) eqn:Hs.
  - destruct (proj1 (is_setup_true _ _ _) Hs) as ([r Hr] & _).
    erewrite frameBufferToResource_hit; eauto.
  - pose proof (frameBufferToResource_miss i frameBuffer size w fb Hfb Hs) as H.
    cbv zeta in H. rewrite H. destruct (FAILED _); eauto.
Qed.

(** Whatever the cache does, it neither submits the command group nor moves
    a write pointer. *)
Lemma frameBufferToResource_events i frameBuffer size w res w' :
  d12_frameBufferToResource get_data device i frameBuffer size w
  = Some (res, w') ->
  exists evs, trace w' = trace w ++ evs
              /\ submits evs = false /\ advances evs = false.
Proof.
  unfold d12_frameBufferToResource.
  destruct (frameBuffers (this w) !! i) as [fb|]; [|discriminate].
  destruct (is_setup fb frameBuffer size).
  - destruct (fb_resource fb) as [r|]; intros [= <- <-].
    + exists [EvAddRef r]. auto.
    + exists []. rewrite app_nil_r. auto.
  - cbn [this set_frameBuffer ivshmemBase].
    destruct (device _ _) as [hr r].
    destruct (FAILED hr); intros [= <- <-]; cbn [trace emit set_frameBuffer].
    + eexists [_]. split; [reflexivity | auto].
    + eexists [_; _]. rewrite <- app_assoc. split; [reflexivity | auto].
Qed.

End CacheFacts.

(** C3.  For every slot index: when the slot holds a resource, its frame
    buffer is the requested one and its recorded size is at least the
    requested size, [d12_frameBufferToResource] returns that same resource
    with one more reference, makes no call to the device and leaves the
    cache as it was.  When the frame buffer differs or the requested size
    exceeds the recorded one, and also when the slot holds no resource, the
    device is asked, once, for a placed buffer of the requested size at the
    offset of the frame buffer's data in the shared heap, and the resource
    it places is returned and replaces the slot's entry. *)
Theorem frameBufferToResource_reuse_or_replace
    (get_data : FrameBuffer -> Z) (device : Device) (i : nat)
    (frameBuffer : FrameBuffer) (size : Z) (w : World) (fb : FrameBufferSlot) :
  frameBuffers (this w) !! i = Some fb ->
  (forall cached : ID3D12Resource,
     fb_resource fb = Some cached ->
     fb_frameBuffer fb = frameBuffer -> size <= fb_size fb ->
     d12_frameBufferToResource get_data device i frameBuffer size w
     = Some (Some cached, emit (EvAddRef cached) w)
     /\ creates [EvAddRef cached] = false)
  /\ (fb_resource fb = None
      \/ fb_frameBuffer fb <> frameBuffer \/ fb_size fb < size ->
      let off := to_uint64 (get_data frameBuffer - ivshmemBase (this w)) in
      let desc := placed_desc size in
      forall hr placed, device off desc = (hr, placed) ->
      exists res w',
        d12_frameBufferToResource get_data device i frameBuffer size w
        = Some (res, w')
        /\ Width desc = size
        /\ trace w' = trace w
             ++ EvCreatePlacedResource off desc
                  D3D12_RESOURCE_STATE_COPY_DEST hr
                :: (if FAILED hr then [] else [EvAddRef placed])
        /\ (FAILED hr = false ->
            res = Some placed
            /\ frameBuffers (this w')
               = <[i := {| fb_size := size; fb_frameBuffer := frameBuffer;
                           fb_resource := Some placed |}]>
                   (frameBuffers (this w))
            /\ frameBuffers (this w') !! i
               = Some {| fb_size := size; fb_frameBuffer := frameBuffer;
                         fb_resource := Some placed |})).
Proof.
  intros Hi. split.
  - intros cached Hr Hfb Hsz. split; [|reflexivity].
    apply (frameBufferToResource_hit _ _ _ _ _ _ fb); auto.
    apply is_setup_true. eauto.
  - intros Hmiss off desc hr placed Hdev.
    assert (Hs : is_setup fb frameBuffer size = false).
    { destruct Hmiss as [Hn|Hm]; [|apply is_setup_false; exact Hm].
      unfold is_setup. rewrite Hn. reflexivity. }
    pose proof (frameBufferToResource_miss get_data device i frameBuffer size
                  w fb Hi Hs) as H.
    cbv zeta in H. unfold heap_offset in H. fold off desc in H.
    rewrite Hdev in H. cbn [fst snd] in H.
    destruct (FAILED hr) eqn:Hf.
    + eexists. eexists. split; [exact H|].
      split; [reflexivity|]. split; [reflexivity | discriminate].
    + eexists. eexists. split; [exact H|].
      cbn [trace this emit set_frameBuffer frameBuffers].
      split; [reflexivity|]. split; [rewrite <- app_assoc; reflexivity|].
      intros _. rewrite list_insert_insert_eq. repeat split.
      apply list_lookup_insert_eq. eapply lookup_lt_Some; eauto.
Qed.

(** The cache of [world_cached], asked again for [bufferA] and no more bytes,
    and asked for [bufferB]; and the empty slot of [world_fresh], asked for
    [bufferA]. *)
Lemma frameBufferToResource_reuse_or_replace_witness :
  d12_frameBufferToResource sample_get_data device_ok 0 bufferA 1024 world_cached
  = Some (Some resourceA, emit (EvAddRef resourceA) world_cached)
  /\ (exists w',
        d12_frameBufferToResource sample_get_data device_ok 0 bufferB 1024
          world_cached
        = Some (Some (resourceB 1024), w')
        /\ frameBuffers (this w') !! 0%nat
           = Some {| fb_size := 1024; fb_frameBuffer := bufferB;
                     fb_resource := Some (resourceB 1024) |})
  /\ (exists w',
        d12_frameBufferToResource sample_get_data device_ok 0 bufferA 4096
          world_fresh
        = Some (Some resourceA, w')
        /\ frameBuffers (this w') !! 0%nat = Some slotA).
Proof.
  assert (Hslot : frameBuffers (this world_cached) !! 0%nat = Some slotA)
    by reflexivity.
  assert (Hzero : frameBuffers (this world_fresh) !! 0%nat = Some zero_slot)
    by reflexivity.
  destruct (frameBufferToResource_reuse_or_replace sample_get_data device_ok 0
              bufferA 1024 world_cached slotA Hslot)
    as [Hhit _].
  destruct (frameBufferToResource_reuse_or_replace sample_get_data device_ok 0
              bufferB 1024 world_cached slotA Hslot)
    as [_ Hmiss].
  destruct (frameBufferToResource_reuse_or_replace sample_get_data device_ok 0
              bufferA 4096 world_fresh zero_slot Hzero)
    as [_ Hempty].
  split; [|split].
  - apply (Hhit resourceA); [reflexivity | reflexivity | vm_compute; discriminate].
  - assert (Hne : fb_resource slotA = None
                  \/ fb_frameBuffer slotA <> bufferB \/ fb_size slotA < 1024)
      by (right; left; vm_compute; discriminate).
    destruct (Hmiss Hne S_OK (resourceB 1024) ltac:(vm_compute; reflexivity))
      as (res & w' & H1 & _ & _ & H4).
    destruct (H4 eq_refl) as (-> & _ & H5).
    exists w'. split; [exact H1 | exact H5].
  - assert (Hn : fb_resource zero_slot = None
                 \/ fb_frameBuffer zero_slot <> bufferA \/ fb_size zero_slot < 4096)
      by (left; reflexivity).
    destruct (Hempty Hn S_OK resourceA ltac:(vm_compute; reflexivity))
      as (res & w' & H1 & _ & _ & H4).
    destruct (H4 eq_refl) as (-> & _ & H5).
    exists w'. split; [exact H1 | exact H5].
Defined.

(** When the device fails on a miss, the call returns [NULL], and the slot
    keeps its resource under the size and frame buffer of the failed
    request. *)
Lemma frameBufferToResource_failure
    (get_data : FrameBuffer -> Z) (device : Device) (i : nat)
    (frameBuffer : FrameBuffer) (size : Z) (w : World) (fb : FrameBufferSlot) :
  frameBuffers (this w) !! i = Some fb ->
  is_setup fb frameBuffer size = false ->
  FAILED (fst (device (heap_offset get_data frameBuffer (ivshmemBase (this w)))
                 (placed_desc size))) = true ->
  exists w',
    d12_frameBufferToResource get_data device i frameBuffer size w
    = Some (None, w')
    /\ frameBuffers (this w') !! i
       = Some {| fb_size := size; fb_frameBuffer := frameBuffer;
                 fb_resource := fb_resource fb |}.
Proof.
  intros Hi Hs Hf.
  pose proof (frameBufferToResource_miss get_data device i frameBuffer size
                w fb Hi Hs) as H.
  cbv zeta in H. rewrite Hf in H. eexists. split; [exact H|].
  cbn [trace this emit set_frameBuffer frameBuffers].
  apply list_lookup_insert_eq. eapply lookup_lt_Some; eauto.
Qed.

(** C4.  [world_cached] holds [resourceA], 4096 bytes, for [bufferA].  A
    request of 8192 bytes for [bufferB] that the device refuses returns
    [NULL] and leaves the slot with [resourceA] recorded as 8192 bytes for
    [bufferB]: the entry is not what it was before the call.  The next
    request of 8192 bytes for [bufferB] is then answered from the cache, with
    the 4096 byte resource placed for [bufferA], and no call to the
    device. *)
Theorem frameBufferToResource_failure_rewrites_slot :
  exists w',
    d12_frameBufferToResource sample_get_data device_fail 0 bufferB 8192
      world_cached
    = Some (None, w')
    /\ frameBuffers (this world_cached) !! 0%nat = Some slotA
    /\ frameBuffers (this w') !! 0%nat
       = Some {| fb_size := 8192; fb_frameBuffer := bufferB;
                 fb_resource := Some resourceA |}
    /\ frameBuffers (this w') !! 0%nat <> frameBuffers (this world_cached) !! 0%nat
    /\ d12_frameBufferToResource sample_get_data device_ok 0 bufferB 8192 w'
       = Some (Some resourceA, emit (EvAddRef resourceA) w').
Proof.
  eexists. split; [vm_compute; reflexivity|].
  split; [reflexivity|]. split; [reflexivity|].
  split; [vm_compute; discriminate | vm_compute; reflexivity].
Qed.

(** ** Capture pipeline: [d12_getFrame] *)

Lemma frame_bytes_exact desc :
  0 <= Height desc -> 0 <= Width desc ->
  Height desc * Width desc * 4 < 2 ^ 64 ->
  frame_bytes desc = Height desc * Width desc * 4.
Proof.
  intros Hh Hw Hlt. unfold frame_bytes.
  assert (0 <= Height desc * Width desc) by nia.
  rewrite (to_uint64_small (Height desc * Width desc)) by lia.
  apply to_uint64_small. lia.
Qed.

(** The four ways through [d12_getFrame]. *)
Lemma getFrame_cases
    (get_data : FrameBuffer -> Z) (device : Device) (backend : D12Backend)
    (i : nat) (frameBuffer : FrameBuffer) (maxFrameSize : Z) (w : World)
    (result : CaptureResult) (w' : World) :
  d12_getFrame get_data device backend i frameBuffer maxFrameSize w
  = Some (result, w') ->
  (fetch backend i = None /\ result = CAPTURE_RESULT_ERROR /\ w' = w)
  \/ (exists src w1,
        fetch backend i = Some src
        /\ d12_frameBufferToResource get_data device i frameBuffer
             (to_uint maxFrameSize) w = Some (None, w1)
        /\ result = CAPTURE_RESULT_ERROR /\ w' = w1)
  \/ (exists src dst w1,
        fetch backend i = Some src
        /\ d12_frameBufferToResource get_data device i frameBuffer
             (to_uint maxFrameSize) w = Some (Some dst, w1)
        /\ sync backend <> CAPTURE_RESULT_OK /\ result = sync backend
        /\ this w' = this w1
        /\ trace w' = trace w1
             ++ [EvCopyTextureRegion
                   (PlacedFootprint dst (dst_footprint (res_desc src)))
                   0 0 0 (SubresourceIndex src 0);
                 EvBackendSync (sync backend)])
  \/ (exists src dst w1,
        fetch backend i = Some src
        /\ d12_frameBufferToResource get_data device i frameBuffer
             (to_uint maxFrameSize) w = Some (Some dst, w1)
        /\ sync backend = CAPTURE_RESULT_OK /\ result = CAPTURE_RESULT_OK
        /\ this w' = this w1
        /\ trace w' = trace w1
             ++ [EvCopyTextureRegion
                   (PlacedFootprint dst (dst_footprint (res_desc src)))
                   0 0 0 (SubresourceIndex src 0);
                 EvBackendSync CAPTURE_RESULT_OK;
                 EvCommandGroupExecute;
                 EvSetWritePtr frameBuffer (frame_bytes (res_desc src))]).
Proof.
  unfold d12_getFrame.
  destruct (fetch backend i) as [src|].
  2:{ intros [= <- <-]. left. auto. }
  destruct (d12_frameBufferToResource _ _ _ _ _ _) as [[[dst|] w1]|] eqn:Hc;
    [| |discriminate].
  2:{ intros [= <- <-]. right. left. eauto 10. }
  destruct (CaptureResult_eqb (sync backend) CAPTURE_RESULT_OK) eqn:Hs;
    cbn [negb]; intros [= <- <-].
  - apply CaptureResult_eqb_eq in Hs.
    right. right. right. exists src, dst, w1. rewrite Hs.
    repeat split. cbn [trace emit].
    rewrite <- !app_assoc. reflexivity.
  - right. right. left. exists src, dst, w1.
    repeat split.
    + intros E. apply CaptureResult_eqb_eq in E. congruence.
    + cbn [trace emit]. rewrite <- !app_assoc. reflexivity.
Qed.

Lemma getFrame_defined
    (get_data : FrameBuffer -> Z) (device : Device) (backend : D12Backend)
    (i : nat) (frameBuffer : FrameBuffer) (maxFrameSize : Z) (w : World) :
  (i < length (frameBuffers (this w)))%nat ->
  is_Some (d12_getFrame get_data device backend i frameBuffer maxFrameSize w).
Proof.
  intros Hi. unfold d12_getFrame.
  destruct (fetch backend i); [|eauto].
  destruct (frameBufferToResource_defined get_data device i frameBuffer
              (to_uint maxFrameSize) w Hi) as [[[dst|] w1] ->]; [|eauto].
  destruct (negb _); eauto.
Qed.

Lemma submits_app a b : submits (a ++ b) = submits a || submits b.
Proof. apply existsb_app. Qed.

Lemma advances_app a b : advances (a ++ b) = advances a || advances b.
Proof. apply existsb_app. Qed.

(** When the backend has a resource, the cache a destination and the sync
    succeeds, [d12_getFrame] records the copy, submits the command group,
    sets the write pointer and returns [CAPTURE_RESULT_OK]. *)
Lemma getFrame_success
    (get_data : FrameBuffer -> Z) (device : Device) (backend : D12Backend)
    (i : nat) (frameBuffer : FrameBuffer) (maxFrameSize : Z) (w w1 : World)
    (src dst : ID3D12Resource) :
  fetch backend i = Some src ->
  d12_frameBufferToResource get_data device i frameBuffer
    (to_uint maxFrameSize) w = Some (Some dst, w1) ->
  sync backend = CAPTURE_RESULT_OK ->
  exists w',
    d12_getFrame get_data device backend i frameBuffer maxFrameSize w
    = Some (CAPTURE_RESULT_OK, w')
    /\ this w' = this w1
    /\ trace w' = trace w1
         ++ [EvCopyTextureRegion
               (PlacedFootprint dst (dst_footprint (res_desc src)))
               0 0 0 (SubresourceIndex src 0);
             EvBackendSync CAPTURE_RESULT_OK;
             EvCommandGroupExecute;
             EvSetWritePtr frameBuffer (frame_bytes (res_desc src))].
Proof.
  intros Hf Hc Hs. unfold d12_getFrame. rewrite Hf, Hc, Hs. cbn [CaptureResult_eqb negb].
  eexists. split; [reflexivity|]. split; [reflexivity|].
  cbn [trace emit]. rewrite <- !app_assoc. reflexivity.
Qed.

(** C1.  A [d12_getFrame] call on a slot of the interface returns, and the
    events it adds move a write pointer exactly when it returns
    [CAPTURE_RESULT_OK].  It returns [CAPTURE_RESULT_OK] exactly when the
    backend has a resource, the cache yields a destination and the
    backend's sync answers [CAPTURE_RESULT_OK]: the call then records the
    copy, submits the command group and sets the write pointer of the
    destination frame buffer to [Height * Width * 4].  When the backend has
    no resource, or the cache yields no destination, or the sync answers
    anything else, the call does not return [CAPTURE_RESULT_OK], does not
    submit the command group and moves no write pointer. *)
Theorem getFrame_write_ptr_iff_ok
    (get_data : FrameBuffer -> Z) (device : Device) (backend : D12Backend)
    (i : nat) (frameBuffer : FrameBuffer) (maxFrameSize : Z) (w : World) :
  (i < length (frameBuffers (this w)))%nat ->
  exists result w' evs,
    d12_getFrame get_data device backend i frameBuffer maxFrameSize w
    = Some (result, w')
    /\ trace w' = trace w ++ evs
    /\ (advances evs = true <-> result = CAPTURE_RESULT_OK)
    /\ (result = CAPTURE_RESULT_OK <->
        exists src dst w1,
          fetch backend i = Some src
          /\ d12_frameBufferToResource get_data device i frameBuffer
               (to_uint maxFrameSize) w = Some (Some dst, w1)
          /\ sync backend = CAPTURE_RESULT_OK)
    /\ (forall src dst w1,
          fetch backend i = Some src ->
          d12_frameBufferToResource get_data device i frameBuffer
            (to_uint maxFrameSize) w = Some (Some dst, w1) ->
          sync backend = CAPTURE_RESULT_OK ->
          result = CAPTURE_RESULT_OK
          /\ advances evs = true /\ submits evs = true
          /\ trace w' = trace w1
               ++ [EvCopyTextureRegion
                     (PlacedFootprint dst (dst_footprint (res_desc src)))
                     0 0 0 (SubresourceIndex src 0);
                   EvBackendSync CAPTURE_RESULT_OK;
                   EvCommandGroupExecute;
                   EvSetWritePtr frameBuffer (frame_bytes (res_desc src))])
    /\ (result = CAPTURE_RESULT_OK ->
        exists src before,
          fetch backend i = Some src
          /\ evs = before ++ [EvCommandGroupExecute;
                              EvSetWritePtr frameBuffer
                                (frame_bytes (res_desc src))]
          /\ submits before = false /\ advances before = false
          /\ (0 <= Height (res_desc src) -> 0 <= Width (res_desc src) ->
              Height (res_desc src) * Width (res_desc src) * 4 < 2 ^ 64 ->
              frame_bytes (res_desc src)
              = Height (res_desc src) * Width (res_desc src) * 4))
    /\ (fetch backend i = None
        \/ (exists w1, d12_frameBufferToResource get_data device i frameBuffer
                         (to_uint maxFrameSize) w = Some (None, w1))
        \/ sync backend <> CAPTURE_RESULT_OK ->
        result <> CAPTURE_RESULT_OK
        /\ submits evs = false /\ advances evs = false).
Proof.
  intros Hi.
  destruct (getFrame_defined get_data device backend i frameBuffer
              maxFrameSize w Hi) as [[result w'] Hrun].
  exists result, w'.
  destruct (getFrame_cases _ _ _ _ _ _ _ _ _ Hrun)
    as [(Hf & -> & ->)
       |[(src & w1 & Hf & Hc & -> & ->)
        |[(src & dst & w1 & Hf & Hc & Hs & -> & _ & Htr)
         |(src & dst & w1 & Hf & Hc & Hs & -> & _ & Htr)]]].
  - exists []. rewrite app_nil_r.
    split; [exact Hrun|]. split; [reflexivity|].
    split; [split; discriminate|].
    split; [split; [discriminate | intros (? & ? & ? & ? & _); congruence]|].
    split; [intros; congruence|].
    split; [discriminate|]. intros _. repeat split; auto; try discriminate.
  - destruct (frameBufferToResource_events _ _ _ _ _ _ _ _ Hc)
      as (evs & Hevs & Hsub & Hadv).
    exists evs. rewrite Hadv.
    split; [exact Hrun|]. split; [exact Hevs|].
    split; [split; discriminate|].
    split; [split; [discriminate | intros (? & ? & ? & _ & ? & _); congruence]|].
    split; [intros; congruence|].
    split; [discriminate|]. intros _. repeat split; auto; try discriminate.
  - destruct (frameBufferToResource_events _ _ _ _ _ _ _ _ Hc)
      as (evs & Hevs & Hsub & Hadv).
    eexists (evs ++ [_; _]).
    split; [exact Hrun|]. split; [rewrite Htr, Hevs, <- app_assoc; reflexivity|].
    rewrite advances_app, submits_app, Hadv, Hsub. cbn.
    split; [split; [discriminate | congruence]|].
    split; [split; [congruence | intros (? & ? & ? & _ & _ & ?); congruence]|].
    split; [intros; congruence|].
    split; [congruence|]. intros _. repeat split; auto; try discriminate.
  - destruct (frameBufferToResource_events _ _ _ _ _ _ _ _ Hc)
      as (evs & Hevs & Hsub & Hadv).
    eexists (evs ++ [_; _; _; _]).
    split; [exact Hrun|]. split; [rewrite Htr, Hevs, <- app_assoc; reflexivity|].
    rewrite advances_app, submits_app, Hadv, Hsub. cbn.
    split; [split; reflexivity|].
    split; [split; [intros _; eauto 6 | reflexivity]|].
    split.
    { intros src' dst' w1' Hf' Hc' _.
      rewrite Hf in Hf'. injection Hf' as <-.
      rewrite Hc in Hc'. injection Hc' as <- <-.
      repeat split. exact Htr. }
    split.
    + intros _. exists src. eexists (evs ++ [_; _]).
      split; [exact Hf|]. split; [rewrite <- app_assoc; reflexivity|].
      rewrite advances_app, submits_app, Hadv, Hsub. cbn.
      repeat split. apply frame_bytes_exact.
    + intros [Hn|[[w2 Hn]|Hn]]; congruence.
Qed.

(** One slot, a 1920 by 1080 frame and a backend that syncs: the call
    returns [CAPTURE_RESULT_OK] and sets the write pointer. *)
Lemma getFrame_write_ptr_iff_ok_witness :
  exists w' evs,
    d12_getFrame sample_get_data device_ok (backend_ready CAPTURE_RESULT_OK)
      0 bufferA 8294400 world_fresh = Some (CAPTURE_RESULT_OK, w')
    /\ trace w' = trace world_fresh ++ evs
    /\ advances evs = true /\ submits evs = true.
Proof.
  assert (Hc : exists dst w1,
             d12_frameBufferToResource sample_get_data device_ok 0 bufferA
               (to_uint 8294400) world_fresh = Some (Some dst, w1))
    by (eexists; eexists; vm_compute; reflexivity).
  destruct Hc as (dst & w1 & Hc).
  destruct (getFrame_write_ptr_iff_ok sample_get_data device_ok
              (backend_ready CAPTURE_RESULT_OK) 0 bufferA 8294400 world_fresh)
    as (result & w' & evs & H1 & H2 & _ & _ & Hok & _).
  - simpl. lia.
  - destruct (Hok frame1080 dst w1 eq_refl Hc eq_refl) as (-> & Ha & Hs & _).
    exists w', evs. auto.
Defined.

(** C10.  When [d12_getFrame] returns [CAPTURE_RESULT_OK], the copy it
    recorded goes from subresource 0 of the source to a footprint at offset
    0 of the destination with the source's format, width and height, depth
    1 and a row pitch of [Width * 4], and the write pointer is set to
    [Height * Width * 4].  Neither depends on [maxFrameSize], which only
    reaches the cache, as the size of the placed resource: a resource
    placed during the call is [maxFrameSize] bytes (as an [unsigned]),
    whatever the size of the frame. *)
Theorem getFrame_copies_whole_frame
    (get_data : FrameBuffer -> Z) (device : Device) (backend : D12Backend)
    (i : nat) (frameBuffer : FrameBuffer) (maxFrameSize : Z) (w w' : World) :
  d12_getFrame get_data device backend i frameBuffer maxFrameSize w
  = Some (CAPTURE_RESULT_OK, w') ->
  exists src dst w1 before,
    fetch backend i = Some src
    /\ d12_frameBufferToResource get_data device i frameBuffer
         (to_uint maxFrameSize) w = Some (Some dst, w1)
    /\ trace w1 = trace w ++ before
    /\ trace w' = trace w ++ before
         ++ [EvCopyTextureRegion
               (PlacedFootprint dst (dst_footprint (res_desc src)))
               0 0 0 (SubresourceIndex src 0);
             EvBackendSync CAPTURE_RESULT_OK;
             EvCommandGroupExecute;
             EvSetWritePtr frameBuffer (frame_bytes (res_desc src))]
    /\ (forall e, In e before -> is_create e = true ->
        exists off hr,
          e = EvCreatePlacedResource off (placed_desc (to_uint maxFrameSize))
                D3D12_RESOURCE_STATE_COPY_DEST hr
          /\ Width (placed_desc (to_uint maxFrameSize)) = to_uint maxFrameSize)
    /\ (0 <= Height (res_desc src) < 2 ^ 32 ->
        0 <= Width (res_desc src) -> Width (res_desc src) * 4 < 2 ^ 32 ->
        dst_footprint (res_desc src)
        = {| Offset := 0;
             Footprint := {| fp_Format := Format (res_desc src);
                             fp_Width := Width (res_desc src);
                             fp_Height := Height (res_desc src);
                             fp_Depth := 1;
                             fp_RowPitch := Width (res_desc src) * 4 |} |}
        /\ frame_bytes (res_desc src)
           = Height (res_desc src) * Width (res_desc src) * 4).
Proof.
  intros Hrun.
  destruct (getFrame_cases _ _ _ _ _ _ _ _ _ Hrun)
    as [(_ & [=] & _)
       |[(src & w1 & _ & _ & [=] & _)
        |[(src & dst & w1 & Hf & Hc & Hs & He & _ & Htr)
         |(src & dst & w1 & Hf & Hc & Hs & _ & _ & Htr)]]].
  { congruence. }
  exists src, dst, w1.
  assert (exists before, trace w1 = trace w ++ before
            /\ forall e, In e before -> is_create e = true ->
               exists off hr,
                 e = EvCreatePlacedResource off
                       (placed_desc (to_uint maxFrameSize))
                       D3D12_RESOURCE_STATE_COPY_DEST hr) as (before & Hb & Hcr).
  { revert Hc. unfold d12_frameBufferToResource.
    destruct (frameBuffers (this w) !! i) as [fb|]; [|discriminate].
    destruct (is_setup fb frameBuffer (to_uint maxFrameSize)).
    - destruct (fb_resource fb) as [r|]; intros [= <- <-].
      exists [EvAddRef r]. split; [reflexivity|].
      intros e [<-|[]]; discriminate.
    - cbn [this set_frameBuffer ivshmemBase].
      destruct (device _ _) as [hr r].
      destruct (FAILED hr); intros [= <- <-]; cbn [trace emit set_frameBuffer].
      eexists [_; _]. rewrite <- app_assoc. split; [reflexivity|].
      intros e [<-|[<-|[]]]; [eauto | discriminate]. }
  exists before. split; [exact Hf|]. split; [exact Hc|]. split; [exact Hb|].
  split; [rewrite Htr, Hb, <- app_assoc; reflexivity|].
  split.
  - intros e Hin Hcre. destruct (Hcr e Hin Hcre) as (off & hr & ->).
    exists off, hr. split; reflexivity.
  - intros Hh Hw Hp. split.
    + unfold dst_footprint.
      rewrite (to_uint64_small (Width (res_desc src) * 4)) by lia.
      rewrite !to_uint_small by lia. reflexivity.
    + apply frame_bytes_exact; try lia.
      assert (Height (res_desc src) * (Width (res_desc src) * 4)
              < 2 ^ 32 * 2 ^ 32) by nia.
      lia.
Qed.

(** A 1920 by 1080 frame asked for with room for 1 MiB only: the footprint
    and the write pointer are those of the whole frame. *)
Lemma getFrame_copies_whole_frame_witness :
  exists w',
    d12_getFrame sample_get_data device_ok (backend_ready CAPTURE_RESULT_OK)
      0 bufferA 1048576 world_fresh = Some (CAPTURE_RESULT_OK, w')
    /\ exists dst before,
         trace w' = trace world_fresh ++ before
           ++ [EvCopyTextureRegion
                 (PlacedFootprint dst (dst_footprint (res_desc frame1080)))
                 0 0 0 (SubresourceIndex frame1080 0);
               EvBackendSync CAPTURE_RESULT_OK;
               EvCommandGroupExecute;
               EvSetWritePtr bufferA (frame_bytes (res_desc frame1080))]
         /\ fp_RowPitch (Footprint (dst_footprint (res_desc frame1080))) = 7680
         /\ fp_Height (Footprint (dst_footprint (res_desc frame1080))) = 1080
         /\ frame_bytes (res_desc frame1080) = 8294400.
Proof.
  assert (Hrun : exists w',
             d12_getFrame sample_get_data device_ok
               (backend_ready CAPTURE_RESULT_OK) 0 bufferA 1048576 world_fresh
             = Some (CAPTURE_RESULT_OK, w'))
    by (eexists; vm_compute; reflexivity).
  destruct Hrun as [w' Hrun]. exists w'. split; [exact Hrun|].
  destruct (getFrame_copies_whole_frame _ _ _ _ _ _ _ _ Hrun)
    as (src & dst & w1 & before & Hf & _ & _ & Htr & _ & Hex).
  cbn in Hf. injection Hf as <-.
  exists dst, before. split; [exact Htr|].
  destruct Hex as [Hfp Hbytes]; [vm_compute; split; congruence
                                | vm_compute; congruence
                                | vm_compute; reflexivity |].
  rewrite Hfp, Hbytes. repeat split.
Defined.

(** ** Capture pipeline: [d12_waitFrame] *)

(** C9.  When the backend has no resource for the index, [d12_waitFrame]
    returns [CAPTURE_RESULT_ERROR], the status of every other failure, and
    leaves the frame descriptor and the interface as they were. *)
Theorem waitFrame_no_resource
    (backend : D12Backend) (i : nat) (frame : CaptureFrame)
    (maxFrameSize : Z) (t : D12Interface) :
  fetch backend i = None ->
  d12_waitFrame backend i frame maxFrameSize t
  = Some (CAPTURE_RESULT_ERROR, frame, t).
Proof. intros H. unfold d12_waitFrame. rewrite H. reflexivity. Qed.

Lemma waitFrame_no_resource_witness :
  d12_waitFrame backend_empty 0 frame_blank 8388608 (d12_create 1)
  = Some (CAPTURE_RESULT_ERROR, frame_blank, d12_create 1).
Proof. apply (waitFrame_no_resource backend_empty 0). reflexivity. Defined.

(** The status of a [d12_waitFrame] call without a resource is not one of
    its own: it is [CAPTURE_RESULT_ERROR], which [d12_getFrame] also returns
    when the device places no resource. *)
Lemma waitFrame_no_resource_not_distinct :
  fetch backend_empty 0 = None
  /\ ~ (forall result frame' t',
          d12_waitFrame backend_empty 0 frame_blank 8388608 (d12_create 1)
          = Some (result, frame', t') ->
          result <> CAPTURE_RESULT_ERROR)
  /\ exists w',
       d12_getFrame sample_get_data device_fail (backend_ready CAPTURE_RESULT_OK)
         0 bufferA 8388608 world_fresh
       = Some (CAPTURE_RESULT_ERROR, w').
Proof.
  split; [reflexivity|]. split.
  - intros H. apply (H CAPTURE_RESULT_ERROR frame_blank (d12_create 1));
      reflexivity.
  - eexists. vm_compute. reflexivity.
Qed.

Lemma waitFrame_ok
    (backend : D12Backend) (i : nat) (frame : CaptureFrame)
    (maxFrameSize : Z) (t : D12Interface) (src : ID3D12Resource) :
  fetch backend i = Some src ->
  to_uint64 (Width (res_desc src) * 4) <> 0 ->
  let desc := res_desc src in
  let t1 := if format_changed desc (lastFormat t)
            then bump_format desc t else t in
  let maxRows := to_uint (maxFrameSize / to_uint64 (Width desc * 4)) in
  exists frame',
    d12_waitFrame backend i frame maxFrameSize t
    = Some (CAPTURE_RESULT_OK, frame', t1)
    /\ frame_formatVer frame' = formatVer t1
    /\ dataHeight frame' = min maxRows (Height desc)
    /\ truncated frame' = (maxRows <? Height desc)
    /\ pitch frame' = to_uint (to_uint64 (Width desc * 4))
    /\ stride frame' = to_uint (Width desc).
Proof.
  intros Hf Hnz. cbv zeta. unfold d12_waitFrame. rewrite Hf.
  unfold _ID3D12Resource_GetDesc.
  destruct (Z.eqb_spec (to_uint64 (Width (res_desc src) * 4)) 0) as [E|_];
    [contradiction|].
  eexists. split; [reflexivity|]. cbn. repeat split.
Qed.

(** C5.  A [d12_waitFrame] call on a resource of width [w > 0] (with a row
    of [w * 4] bytes below 2^32) and height [h] returns
    [CAPTURE_RESULT_OK] with [pitch = w * 4], [stride = w],
    [dataHeight = min maxRows h] and [truncated = (maxRows < h)], where
    [maxRows] is [maxFrameSize / (w * 4)] reduced to 32 bits; it is that
    quotient itself when the quotient is below 2^32.  So for
    [maxFrameSize = w * h * 4] the frame is not truncated and
    [dataHeight = h], and for [maxFrameSize < w * h * 4] it is truncated and
    [dataHeight = maxFrameSize / (w * 4) <= h]. *)
Theorem waitFrame_descriptor
    (backend : D12Backend) (i : nat) (frame : CaptureFrame)
    (maxFrameSize : Z) (t : D12Interface) (src : ID3D12Resource) :
  let w := Width (res_desc src) in
  let h := Height (res_desc src) in
  fetch backend i = Some src ->
  0 < w -> w * 4 < 2 ^ 32 -> 0 <= h < 2 ^ 32 -> 0 <= maxFrameSize ->
  exists frame' t',
    d12_waitFrame backend i frame maxFrameSize t
    = Some (CAPTURE_RESULT_OK, frame', t')
    /\ let maxRows := (maxFrameSize / (w * 4)) mod 2 ^ 32 in
       dataHeight frame' = Z.min maxRows h
       /\ truncated frame' = (maxRows <? h)
       /\ pitch frame' = w * 4
       /\ stride frame' = w
       /\ (maxFrameSize / (w * 4) < 2 ^ 32 -> maxRows = maxFrameSize / (w * 4))
       /\ (maxFrameSize = w * h * 4 ->
           truncated frame' = false /\ dataHeight frame' = h)
       /\ (maxFrameSize < w * h * 4 ->
           truncated frame' = true
           /\ dataHeight frame' = maxFrameSize / (w * 4)
           /\ dataHeight frame' <= h).
Proof.
  intros w h Hf Hw Hp Hh Hm.
  assert (Hrow : to_uint64 (w * 4) = w * 4) by (apply to_uint64_small; lia).
  assert (Hq : 0 <= maxFrameSize / (w * 4)) by (apply Z.div_pos; lia).
  destruct (waitFrame_ok backend i frame maxFrameSize t src Hf)
    as (frame' & Hrun & _ & Hdh & Htr & Hpi & Hst).
  { fold w. rewrite Hrow. lia. }
  fold w h in Hdh, Htr, Hpi, Hst. rewrite Hrow in Hdh, Htr, Hpi.
  unfold to_uint in Hdh, Htr. rewrite min_spec in Hdh.
  exists frame'. eexists. split; [exact Hrun|]. cbv zeta.
  split; [exact Hdh|]. split; [exact Htr|].
  split; [rewrite Hpi; apply to_uint_small; lia|].
  split; [rewrite Hst; apply to_uint_small; lia|].
  split; [intros Hlt; apply Z.mod_small; lia|].
  split.
  - intros ->.
    assert (E : w * h * 4 / (w * 4) = h).
    { replace (w * h * 4) with (h * (w * 4)) by ring.
      apply Z.div_mul. lia. }
    rewrite Hdh, Htr, E, Z.mod_small by lia.
    split; [apply Z.ltb_irrefl | lia].
  - intros Hlt.
    assert (E : maxFrameSize / (w * 4) < h).
    { apply Z.div_lt_upper_bound; lia. }
    rewrite Hdh, Htr, Z.mod_small by lia.
    split; [apply Z.ltb_lt; exact E | lia].
Qed.

(** The scenario of a 1920 by 1080 surface and 8 MiB. *)
Lemma waitFrame_descriptor_witness :
  exists frame' t',
    d12_waitFrame (backend_ready CAPTURE_RESULT_OK) 0 frame_blank 8388608
      (d12_create 1)
    = Some (CAPTURE_RESULT_OK, frame', t')
    /\ dataHeight frame' = 1080 /\ truncated frame' = false
    /\ pitch frame' = 7680 /\ stride frame' = 1920.
Proof.
  destruct (waitFrame_descriptor (backend_ready CAPTURE_RESULT_OK) 0
              frame_blank 8388608 (d12_create 1) frame1080)
    as (frame' & t' & Hrun & Hdh & Htr & Hpi & Hst & _);
    [reflexivity | reflexivity | reflexivity
    | split; [discriminate | reflexivity] | discriminate |].
  exists frame', t'. split; [exact Hrun|].
  rewrite Hdh, Htr, Hpi, Hst. vm_compute. repeat split.
Defined.

(** With room for 16 GiB and a texture of one pixel, the quotient is 2^32,
    which [maxRows] does not hold: the frame is reported truncated, with no
    row, where [min (maxFrameSize / (w * 4)) h] is 1. *)
Lemma waitFrame_descriptor_maxRows_wraps :
  exists frame' t',
    d12_waitFrame (backend_with frame1) 0 frame_blank 17179869184 (d12_create 1)
    = Some (CAPTURE_RESULT_OK, frame', t')
    /\ dataHeight frame' = 0 /\ truncated frame' = true
    /\ 17179869184 / (Width (res_desc frame1) * 4) = 4294967296
    /\ Z.min (17179869184 / (Width (res_desc frame1) * 4))
             (Height (res_desc frame1)) = 1
    /\ (17179869184 / (Width (res_desc frame1) * 4) <? Height (res_desc frame1))
       = false.
Proof.
  eexists. eexists. split; [vm_compute; reflexivity|].
  vm_compute. repeat split.
Qed.

(** *** The format version *)

Lemma waitFrame_state
    (backend : D12Backend) (i : nat) (frame : CaptureFrame)
    (maxFrameSize : Z) (t : D12Interface)
    (result : CaptureResult) (frame' : CaptureFrame) (t' : D12Interface) :
  d12_waitFrame backend i frame maxFrameSize t = Some (result, frame', t') ->
  t' = match fetch backend i with
       | Some src => if format_changed (res_desc src) (lastFormat t)
                     then bump_format (res_desc src) t else t
       | None => t
       end.
Proof.
  unfold d12_waitFrame, _ID3D12Resource_GetDesc.
  destruct (fetch backend i) as [src|]; [|intros [= _ _ <-]; reflexivity].
  destruct (_ =? 0); [discriminate|]. intros [= _ _ <-]. reflexivity.
Qed.

Lemma waitFrame_defined
    (backend : D12Backend) (i : nat) (frame : CaptureFrame)
    (maxFrameSize : Z) (t : D12Interface) :
  (forall src, fetch backend i = Some src ->
               to_uint64 (Width (res_desc src) * 4) <> 0) ->
  is_Some (d12_waitFrame backend i frame maxFrameSize t).
Proof.
  intros Hd. destruct (fetch backend i) as [src|] eqn:Hf.
  - destruct (waitFrame_ok backend i frame maxFrameSize t src Hf (Hd src eq_refl))
      as (frame' & -> & _). eauto.
  - unfold d12_waitFrame. rewrite Hf. eauto.
Qed.

Lemma format_transitions_nonneg calls :
  forall last, 0 <= format_transitions last calls.
Proof.
  induction calls as [|c rest IH]; intros last; cbn; [lia|].
  destruct (fetch _ _) as [src|]; [|apply IH].
  destruct (format_changed _ _); [|apply IH].
  specialize (IH (res_desc src)). lia.
Qed.

Lemma to_uint_succ_add a n : to_uint (to_uint (a + 1) + n) = to_uint (a + (1 + n)).
Proof.
  unfold to_uint. rewrite Zplus_mod_idemp_l. f_equal. ring.
Qed.

(** A sequence of defined calls returns, and adds its transitions to the
    version, in 32 bits. *)
Lemma waitFrames_formatVer calls :
  forall frame t,
    0 <= formatVer t < 2 ^ 32 ->
    Forall call_defined calls ->
    exists frame' t',
      waitFrames calls frame t = Some (frame', t')
      /\ formatVer t'
         = to_uint (formatVer t + format_transitions (lastFormat t) calls).
Proof.
  induction calls as [|c rest IH]; intros frame t Hr Hd.
  - exists frame, t. split; [reflexivity|]. cbn.
    rewrite Z.add_0_r. symmetry. apply to_uint_small. exact Hr.
  - apply Forall_cons in Hd. destruct Hd as [Hc Hrest].
    destruct (waitFrame_defined (wc_backend c) (wc_index c) frame
                (wc_maxFrameSize c) t Hc) as [[[r f1] t1] Hrun].
    pose proof (waitFrame_state _ _ _ _ _ _ _ _ Hrun) as Ht1.
    cbn [waitFrames format_transitions]. rewrite Hrun.
    destruct (fetch (wc_backend c) (wc_index c)) as [src|].
    + destruct (format_changed (res_desc src) (lastFormat t)); subst t1.
      * destruct (IH f1 (bump_format (res_desc src) t)) as (f' & t' & H1 & H2);
          [cbn; apply to_uint_range | exact Hrest |].
        exists f', t'. split; [exact H1|].
        rewrite H2. cbn [formatVer lastFormat bump_format].
        apply to_uint_succ_add.
      * apply IH; assumption.
    + subst t1. apply IH; assumption.
Qed.

(** Without a wrap, the version after a prefix lies between those at the
    two ends. *)
Lemma waitFrames_prefix pre :
  forall post frame t,
    0 <= formatVer t ->
    Forall call_defined (pre ++ post) ->
    formatVer t + format_transitions (lastFormat t) (pre ++ post) < 2 ^ 32 ->
    exists frame1 t1,
      waitFrames pre frame t = Some (frame1, t1)
      /\ formatVer t <= formatVer t1
      /\ formatVer t1 + format_transitions (lastFormat t1) post
         = formatVer t + format_transitions (lastFormat t) (pre ++ post).
Proof.
  induction pre as [|c rest IH]; intros post frame t Hr Hd Hlt.
  - exists frame, t. cbn. split; [reflexivity|]. split; [lia | reflexivity].
  - cbn [app] in Hd, Hlt. apply Forall_cons in Hd. destruct Hd as [Hc Hrest].
    destruct (waitFrame_defined (wc_backend c) (wc_index c) frame
                (wc_maxFrameSize c) t Hc) as [[[r f1] t1] Hrun].
    pose proof (waitFrame_state _ _ _ _ _ _ _ _ Hrun) as Ht1.
    cbn [waitFrames format_transitions app] in *. rewrite Hrun.
    destruct (fetch (wc_backend c) (wc_index c)) as [src|].
    + destruct (format_changed (res_desc src) (lastFormat t)); subst t1.
      * pose proof (format_transitions_nonneg (rest ++ post) (res_desc src)).
        assert (Hfv : formatVer (bump_format (res_desc src) t) = formatVer t + 1)
          by (cbn; apply to_uint_small; lia).
        destruct (IH post f1 (bump_format (res_desc src) t))
          as (f' & t' & H1 & H2 & H3); [lia | exact Hrest | |].
        { rewrite Hfv. cbn [lastFormat bump_format]. lia. }
        exists f', t'. split; [exact H1|].
        rewrite Hfv in H2, H3. cbn [lastFormat bump_format] in H3.
        split; lia.
      * apply IH; assumption.
    + subst t1. apply IH; assumption.
Qed.

(** C2.  A [d12_waitFrame] call that fetches a resource whose width, height
    or format is not the one observed last adds one to the format version,
    in 32 bits, and records the new format; any other call leaves version
    and format as they were.  So a sequence of calls adds to the version the
    number of its format transitions, in 32 bits; and as long as that sum
    stays below 2^32 the version never decreases along the sequence. *)
Theorem waitFrame_formatVer :
  (forall backend i frame maxFrameSize t result frame' t',
      d12_waitFrame backend i frame maxFrameSize t = Some (result, frame', t') ->
      match fetch backend i with
      | Some src =>
        if format_changed (res_desc src) (lastFormat t)
        then formatVer t' = (formatVer t + 1) mod 2 ^ 32
             /\ lastFormat t' = res_desc src
        else formatVer t' = formatVer t /\ lastFormat t' = lastFormat t
      | None => formatVer t' = formatVer t /\ lastFormat t' = lastFormat t
      end)
  /\ (forall calls frame t,
        0 <= formatVer t < 2 ^ 32 ->
        Forall call_defined calls ->
        exists frame' t',
          waitFrames calls frame t = Some (frame', t')
          /\ formatVer t'
             = (formatVer t + format_transitions (lastFormat t) calls) mod 2 ^ 32
          /\ (formatVer t + format_transitions (lastFormat t) calls < 2 ^ 32 ->
              formatVer t'
              = formatVer t + format_transitions (lastFormat t) calls
              /\ forall pre post, calls = pre ++ post ->
                 exists frame1 t1,
                   waitFrames pre frame t = Some (frame1, t1)
                   /\ formatVer t <= formatVer t1 <= formatVer t')).
Proof.
  split.
  - intros backend i frame maxFrameSize t result frame' t' Hrun.
    rewrite (waitFrame_state _ _ _ _ _ _ _ _ Hrun).
    destruct (fetch backend i) as [src|]; [|auto].
    destruct (format_changed _ _); auto.
  - intros calls frame t Hr Hd.
    destruct (waitFrames_formatVer calls frame t Hr Hd) as (frame' & t' & H1 & H2).
    exists frame', t'. split; [exact H1|]. split; [exact H2|].
    intros Hlt.
    pose proof (format_transitions_nonneg calls (lastFormat t)) as Hnn.
    rewrite to_uint_small in H2 by lia. split; [exact H2|].
    intros pre post ->.
    destruct (waitFrames_prefix pre post frame t (proj1 Hr) Hd Hlt)
      as (frame1 & t1 & Hp1 & Hp2 & Hp3).
    exists frame1, t1. split; [exact Hp1|].
    pose proof (format_transitions_nonneg post (lastFormat t1)). lia.
Qed.

(** From [d12_create], 1080p, 720p and 1080p again: three transitions. *)
Lemma waitFrame_formatVer_witness :
  exists frame' t',
    waitFrames [call1080; call720; call720; call1080] frame_blank (d12_create 1)
    = Some (frame', t')
    /\ formatVer t' = 3.
Proof.
  destruct waitFrame_formatVer as [_ Hseq].
  destruct (Hseq [call1080; call720; call720; call1080] frame_blank
              (d12_create 1)) as (frame' & t' & Hrun & _ & Hsum).
  - split; [discriminate | reflexivity].
  - repeat constructor; intros src [= <-]; vm_compute; discriminate.
  - exists frame', t'. split; [exact Hrun|].
    destruct Hsum as [-> _]; reflexivity.
Defined.

(** At 4294967295 the version of a call that sees a new format is 0: it
    decreases. *)
Lemma waitFrame_formatVer_wraps :
  formatVer interface_at_max = 4294967295
  /\ format_changed (res_desc frame1080) (lastFormat interface_at_max) = true
  /\ exists frame' t',
       d12_waitFrame (backend_with frame1080) 0 frame_blank 8388608
         interface_at_max
       = Some (CAPTURE_RESULT_OK, frame', t')
       /\ formatVer t' = 0
       /\ ~ formatVer interface_at_max <= formatVer t'.
Proof.
  split; [reflexivity|]. split; [reflexivity|].
  eexists. eexists. split; [vm_compute; reflexivity|].
  split; [reflexivity | vm_compute; congruence].
Qed.

Lemma alternating_defined n :
  forall a b, call_defined a -> call_defined b ->
              Forall call_defined (alternating n a b).
Proof.
  induction n as [|n IH]; intros a b Ha Hb; cbn; constructor; auto.
Qed.

Lemma alternating_transitions n :
  forall a b ra rb last,
    fetch (wc_backend a) (wc_index a) = Some ra ->
    fetch (wc_backend b) (wc_index b) = Some rb ->
    format_changed (res_desc ra) (res_desc rb) = true ->
    format_changed (res_desc rb) (res_desc ra) = true ->
    format_changed (res_desc ra) last = true ->
    format_transitions last (alternating n a b) = Z.of_nat n.
Proof.
  induction n as [|n IH]; intros a b ra rb last Ha Hb Hab Hba Hl;
    [reflexivity|].
  cbn [alternating format_transitions]. rewrite Ha, Hl.
  rewrite (IH b a rb ra (res_desc ra) Hb Ha Hba Hab Hba). lia.
Qed.

(** The version of [interface_at_max] is reached: from [d12_create], a
    display that changes between 720p and 1080p gives version 4294967295
    after as many calls, and version 0 after 4294967296. *)
Lemma waitFrame_formatVer_wrap_reached :
  (exists frame' t',
     waitFrames (alternating (Z.to_nat 4294967295) call720 call1080)
       frame_blank (d12_create 1) = Some (frame', t')
     /\ formatVer t' = 4294967295)
  /\ (exists frame' t',
        waitFrames (alternating (Z.to_nat 4294967296) call720 call1080)
          frame_blank (d12_create 1) = Some (frame', t')
        /\ formatVer t' = 0).
Proof.
  assert (Hd1 : call_defined call1080)
    by (intros src [= <-]; vm_compute; discriminate).
  assert (Hd2 : call_defined call720)
    by (intros src [= <-]; vm_compute; discriminate).
  assert (Hn : forall n,
             exists frame' t',
               waitFrames (alternating n call720 call1080) frame_blank
                 (d12_create 1) = Some (frame', t')
               /\ formatVer t' = to_uint (Z.of_nat n)).
  { intros n.
    destruct (waitFrames_formatVer (alternating n call720 call1080) frame_blank
                (d12_create 1)) as (frame' & t' & H1 & H2).
    - split; [discriminate | reflexivity].
    - apply alternating_defined; assumption.
    - exists frame', t'. split; [exact H1|]. rewrite H2.
      rewrite (alternating_transitions n call720 call1080 frame720 frame1080);
        reflexivity. }
  split.
  - destruct (Hn (Z.to_nat 4294967295)) as (frame' & t' & H1 & H2).
    exists frame', t'. split; [exact H1|].
    rewrite H2, Z2Nat.id by discriminate. reflexivity.
  - destruct (Hn (Z.to_nat 4294967296)) as (frame' & t' & H1 & H2).
    exists frame', t'. split; [exact H1|].
    rewrite H2, Z2Nat.id by discriminate. reflexivity.
Qed.

(** ** Adapter and output selection *)

Lemma first_attached_Some outputs o :
  first_attached outputs = Some o <->
  exists before after,
    outputs = before ++ o :: after
    /\ Forall (fun q => AttachedToDesktop q = false) before
    /\ AttachedToDesktop o = true.
Proof.
  induction outputs as [|q rest IH]; cbn.
  - split; [discriminate|]. intros ([|? ?] & after & H & _); discriminate.
  - destruct (AttachedToDesktop q) eqn:Hq.
    + split.
      * intros [= <-]. exists [], rest. auto.
      * intros ([|q' before] & after & H & Hb & Ho).
        -- injection H as -> _. reflexivity.
        -- injection H as <- _. apply Forall_cons in Hb. destruct Hb.
           congruence.
    + rewrite IH. split.
      * intros (before & after & -> & Hb & Ho).
        exists (q :: before), after. auto.
      * intros ([|q' before] & after & H & Hb & Ho).
        -- injection H as -> _. congruence.
        -- injection H as _ ->. apply Forall_cons in Hb. destruct Hb.
           eauto.
Qed.

Lemma first_attached_None outputs :
  first_attached outputs = None <->
  Forall (fun q => AttachedToDesktop q = false) outputs.
Proof.
  induction outputs as [|q rest IH]; cbn.
  - split; auto.
  - rewrite Forall_cons. destruct (AttachedToDesktop q).
    + split; [discriminate | intros [? _]; discriminate].
    + rewrite IH. tauto.
Qed.

(** What the selection returns was enumerated, has a description, is not on
    the blacklist, and comes with its first attached output. *)
Lemma enumerateDevices_sound factory a o :
  d12_enumerateDevices factory = Some (a, o) ->
  In a factory /\ FAILED (fst (GetDesc1 a)) = false /\ blacklisted a = false
  /\ first_attached (EnumOutputs a) = Some o.
Proof.
  induction factory as [|p rest IH]; cbn [d12_enumerateDevices];
    [discriminate|].
  unfold blacklisted in *.
  destruct (GetDesc1 p) as [hr desc] eqn:Hd.
  destruct (FAILED hr) eqn:Hhr; [discriminate|].
  destruct (skip desc) eqn:Hs.
  - intros H. destruct (IH H) as (? & ? & ? & ?).
    auto using List.in_cons.
  - destruct (first_attached (EnumOutputs p)) as [q|] eqn:Hq.
    + intros [= <- <-]. rewrite Hd. cbn [fst snd].
      auto using List.in_eq.
    + intros H. destruct (IH H) as (? & ? & ? & ?).
    auto using List.in_cons.
Qed.

(** Adapters that are on the blacklist or have no attached output are
    passed over, as long as they have a description. *)
Lemma enumerateDevices_skip before rest :
  Forall (fun p => FAILED (fst (GetDesc1 p)) = false
                   /\ (blacklisted p = true
                       \/ first_attached (EnumOutputs p) = None)) before ->
  d12_enumerateDevices (before ++ rest) = d12_enumerateDevices rest.
Proof.
  induction before as [|p before IH]; intros H; [reflexivity|].
  apply Forall_cons in H. destruct H as [[Hok Hp] Hrest].
  cbn [d12_enumerateDevices app]. unfold blacklisted in Hp.
  destruct (GetDesc1 p) as [hr desc]. cbn [fst snd] in Hok, Hp. rewrite Hok.
  destruct (skip desc); [apply IH; exact Hrest|].
  destruct Hp as [Hp|Hp]; [discriminate|]. rewrite Hp. apply IH. exact Hrest.
Qed.

Lemma enumerateDevices_none factory :
  Forall (fun p => blacklisted p = true
                   \/ first_attached (EnumOutputs p) = None) factory ->
  d12_enumerateDevices factory = None.
Proof.
  induction factory as [|p rest IH]; intros H; [reflexivity|].
  apply Forall_cons in H. destruct H as [Hp Hrest].
  cbn [d12_enumerateDevices]. unfold blacklisted in Hp.
  destruct (GetDesc1 p) as [hr desc]. cbn [fst snd] in Hp.
  destruct (FAILED hr); [reflexivity|].
  destruct (skip desc); [apply IH; exact Hrest|].
  destruct Hp as [Hp|Hp]; [discriminate|]. rewrite Hp. apply IH. exact Hrest.
Qed.

(** C7.  Whatever the order of adapters and outputs: the selection never
    returns an adapter whose (VendorId, DeviceId) is on the blacklist; it
    returns the first adapter, in enumeration order, that is not on the
    blacklist and has an output attached to the desktop, with the first such
    output of that adapter; and it fails when every adapter is on the
    blacklist or has no attached output. *)
Theorem enumerateDevices_first_usable (factory : IDXGIFactory2) :
  (forall a o,
     d12_enumerateDevices factory = Some (a, o) ->
     blacklisted a = false /\ In a factory
     /\ In o (EnumOutputs a) /\ AttachedToDesktop o = true)
  /\ (forall before a after obefore o oafter,
        factory = before ++ a :: after ->
        Forall (fun p => FAILED (fst (GetDesc1 p)) = false) (before ++ [a]) ->
        Forall (fun p => blacklisted p = true
                         \/ Forall (fun q => AttachedToDesktop q = false)
                                   (EnumOutputs p)) before ->
        blacklisted a = false ->
        EnumOutputs a = obefore ++ o :: oafter ->
        Forall (fun q => AttachedToDesktop q = false) obefore ->
        AttachedToDesktop o = true ->
        d12_enumerateDevices factory = Some (a, o))
  /\ (Forall (fun p => blacklisted p = true
                       \/ Forall (fun q => AttachedToDesktop q = false)
                                 (EnumOutputs p)) factory ->
      d12_enumerateDevices factory = None).
Proof.
  split; [|split].
  - intros a o H.
    destruct (enumerateDevices_sound _ _ _ H) as (Hin & _ & Hbl & Hfa).
    apply first_attached_Some in Hfa.
    destruct Hfa as (ob & oa & Heq & _ & Hat).
    repeat split; auto. rewrite Heq. apply in_or_app. right. left. reflexivity.
  - intros before a after obefore o oafter -> Hdesc Hbefore Hbl Houts Hob Hat.
    apply Forall_app in Hdesc. destruct Hdesc as [Hdb Hda].
    apply Forall_cons in Hda. destruct Hda as [Hda _].
    rewrite enumerateDevices_skip.
    + cbn [d12_enumerateDevices]. unfold blacklisted in Hbl.
      destruct (GetDesc1 a) as [hr desc]. cbn [fst snd] in Hda, Hbl.
      rewrite Hda, Hbl.
      assert (Hfa : first_attached (EnumOutputs a) = Some o)
        by (apply first_attached_Some; eauto).
      rewrite Hfa. reflexivity.
    + rewrite Forall_forall in *. intros p Hp. split; [auto|].
      destruct (Hbefore p Hp) as [H|H]; [left; exact H|].
      right. apply first_attached_None. exact H.
  - intros H. apply enumerateDevices_none.
    rewrite Forall_forall in *. intros p Hp.
    destruct (H p Hp) as [H1|H1]; [left; exact H1|].
    right. apply first_attached_None. exact H1.
Qed.

(** A blacklisted adapter with an attached output, then a GPU without
    outputs, then a GPU whose second output is attached: the selection is
    that GPU and that output.  The blacklisted adapter alone: no device. *)
Lemma enumerateDevices_first_usable_witness :
  d12_enumerateDevices [basic_render; headless_gpu; gpu]
  = Some (gpu, output 0xB200 true)
  /\ d12_enumerateDevices [basic_render] = None.
Proof.
  split.
  - destruct (enumerateDevices_first_usable [basic_render; headless_gpu; gpu])
      as (_ & Hfirst & _).
    apply (Hfirst [basic_render; headless_gpu] gpu [] [output 0xB100 false]
             (output 0xB200 true) []).
    + reflexivity.
    + repeat constructor.
    + constructor; [left; reflexivity|].
      constructor; [right; constructor | constructor].
    + reflexivity.
    + reflexivity.
    + repeat constructor.
    + reflexivity.
  - destruct (enumerateDevices_first_usable [basic_render]) as (_ & _ & Hnone).
    apply Hnone. constructor; [left; reflexivity | constructor].
Defined.

(** ** Device and queue bring-up *)

(** Two passes from the label always reach the end of the loop. *)
Lemma retryCreateCommandQueue_two create queueDesc :
  retryCreateCommandQueue 2 create queueDesc []
  = if FAILED (create queueDesc)
       && (Priority queueDesc =? D3D12_COMMAND_QUEUE_PRIORITY_GLOBAL_REALTIME)
    then
      let high := set_Priority D3D12_COMMAND_QUEUE_PRIORITY_HIGH queueDesc in
      Some (create high, high, [attempt create queueDesc; attempt create high])
    else Some (create queueDesc, queueDesc, [attempt create queueDesc]).
Proof.
  cbn [retryCreateCommandQueue app].
  destruct (FAILED (create queueDesc)); [|reflexivity].
  destruct (Priority queueDesc =? _); [|reflexivity].
  cbn [andb set_Priority Priority].
  change (D3D12_COMMAND_QUEUE_PRIORITY_HIGH
          =? D3D12_COMMAND_QUEUE_PRIORITY_GLOBAL_REALTIME) with false.
  destruct (FAILED _); reflexivity.
Qed.

(** More passes change nothing. *)
Lemma retryCreateCommandQueue_fuel fuel create queueDesc :
  retryCreateCommandQueue (S (S fuel)) create queueDesc []
  = retryCreateCommandQueue 2 create queueDesc [].
Proof.
  cbn [retryCreateCommandQueue app].
  destruct (FAILED (create queueDesc)); [|reflexivity].
  destruct (Priority queueDesc =? _); [|reflexivity].
  cbn [set_Priority Priority].
  change (D3D12_COMMAND_QUEUE_PRIORITY_HIGH
          =? D3D12_COMMAND_QUEUE_PRIORITY_GLOBAL_REALTIME) with false.
  destruct (FAILED _); reflexivity.
Qed.

Lemma init_queue env base alignSize queueDesc t :
  reaches_queue env t ->
  exists out,
    d12_init env base alignSize queueDesc t = Some out
    /\ (let create := CreateCommandQueue env in
        let high := set_Priority D3D12_COMMAND_QUEUE_PRIORITY_HIGH queueDesc in
        if FAILED (create queueDesc)
           && (Priority queueDesc
               =? D3D12_COMMAND_QUEUE_PRIORITY_GLOBAL_REALTIME)
        then init_calls out = [attempt create queueDesc; attempt create high]
             /\ init_queueDesc out = high
             /\ (FAILED (create high) = true ->
                 init_result out = false /\ init_stage out = QueueFailed)
        else init_calls out = [attempt create queueDesc]
             /\ init_queueDesc out = queueDesc
             /\ (FAILED (create queueDesc) = true ->
                 init_result out = false /\ init_stage out = QueueFailed)).
Proof.
  intros (H1 & [dev H2] & H3 & H4). unfold d12_init.
  rewrite H1, H2, H3, H4, retryCreateCommandQueue_two. cbv zeta.
  destruct (FAILED (CreateCommandQueue env queueDesc)
            && (Priority queueDesc =? _)) eqn:E.
  - destruct (FAILED (CreateCommandQueue env (set_Priority _ queueDesc))) eqn:E2.
    + eexists. split; [reflexivity|]. cbn. auto.
    + destruct (d12_commandGroupCreate env); cbn [negb];
        [destruct (FAILED (OpenExistingHeapFromAddress env));
         [|destruct (d12_backendInit env); cbn [negb]]|];
        (eexists; split; [reflexivity|]; cbn;
         repeat split; discriminate).
  - destruct (FAILED (CreateCommandQueue env queueDesc)) eqn:E2.
    + eexists. split; [reflexivity|]. cbn. auto.
    + destruct (d12_commandGroupCreate env); cbn [negb];
        [destruct (FAILED (OpenExistingHeapFromAddress env));
         [|destruct (d12_backendInit env); cbn [negb]]|];
        (eexists; split; [reflexivity|]; cbn;
         repeat split; discriminate).
Qed.

(** C8.  A [d12_init] that gets as far as the queue first asks for it at the
    priority the static [queueDesc] holds: real time until an earlier
    [d12_init] was refused at real time, high from then on.  Only a refusal
    at real time is followed by one more call, at high priority, which
    [queueDesc] keeps; a refusal at high priority ends [d12_init] with
    [false] at the queue.  There are at most two calls, and none at a
    priority other than the one held and high. *)
Theorem init_queue_priority
    (env : InitEnv) (base alignSize : Z)
    (queueDesc : D3D12_COMMAND_QUEUE_DESC) (t : D12Interface) :
  reaches_queue env t ->
  let create := CreateCommandQueue env in
  let realtime := D3D12_COMMAND_QUEUE_PRIORITY_GLOBAL_REALTIME in
  let high := D3D12_COMMAND_QUEUE_PRIORITY_HIGH in
  exists out,
    d12_init env base alignSize queueDesc t = Some out
    /\ (exists more, priorities (init_calls out) = Priority queueDesc :: more
                     /\ (more = [] \/ more = [high]))
    /\ (Priority queueDesc = realtime ->
        (FAILED (create queueDesc) = false ->
         priorities (init_calls out) = [realtime]
         /\ Priority (init_queueDesc out) = realtime)
        /\ (FAILED (create queueDesc) = true ->
            priorities (init_calls out) = [realtime; high]
            /\ Priority (init_queueDesc out) = high
            /\ (FAILED (create (set_Priority high queueDesc)) = true ->
                init_result out = false /\ init_stage out = QueueFailed)))
    /\ (Priority queueDesc <> realtime ->
        priorities (init_calls out) = [Priority queueDesc]
        /\ init_queueDesc out = queueDesc
        /\ (FAILED (create queueDesc) = true ->
            init_result out = false /\ init_stage out = QueueFailed)).
Proof.
  intros Hreach create realtime high.
  destruct (init_queue env base alignSize queueDesc t Hreach) as (out & Hrun & H).
  exists out. split; [exact Hrun|]. cbv zeta in H. fold create in H.
  destruct (FAILED (create queueDesc)) eqn:Hf;
    destruct (Z.eqb_spec (Priority queueDesc)
                D3D12_COMMAND_QUEUE_PRIORITY_GLOBAL_REALTIME) as [Hp|Hp];
    cbn [andb] in H; destruct H as (Hc & Hq & Hfail);
    unfold priorities; rewrite Hc, Hq; cbn [map attempt attempt_desc];
    fold realtime high.
  - split; [exists [high]; cbn; auto|].
    split; [|intros Hn; contradiction].
    intros _. split; [discriminate|]. intros _.
    rewrite Hp. cbn. fold realtime. repeat split; apply Hfail; assumption.
  - split; [exists []; auto|].
    split; [intros Hn; contradiction|].
    intros _. repeat split; apply Hfail; reflexivity.
  - split; [exists []; auto|].
    split; [|intros Hn; contradiction].
    intros _. split; [|discriminate]. intros _. rewrite Hp. auto.
  - split; [exists []; auto|].
    split; [intros Hn; contradiction|].
    intros _. repeat split; discriminate.
Qed.

(** The first [d12_init] on a driver that refuses real time. *)
Lemma init_queue_priority_witness :
  exists out,
    d12_init (platform reject_realtime) sample_base 0 queueDesc_init
      (d12_create 1) = Some out
    /\ priorities (init_calls out)
       = [D3D12_COMMAND_QUEUE_PRIORITY_GLOBAL_REALTIME;
          D3D12_COMMAND_QUEUE_PRIORITY_HIGH]
    /\ Priority (init_queueDesc out) = D3D12_COMMAND_QUEUE_PRIORITY_HIGH.
Proof.
  destruct (init_queue_priority (platform reject_realtime) sample_base 0
              queueDesc_init (d12_create 1))
    as (out & Hrun & _ & Hrt & _).
  - repeat split. eexists. reflexivity.
  - exists out. split; [exact Hrun|].
    destruct (Hrt eq_refl) as [_ Hrej].
    destruct (Hrej eq_refl) as (H1 & H2 & _). auto.
Defined.

(** After a [d12_init] that was refused real time, the next [d12_init] asks
    for high priority first, and only for that, on a driver that would now
    grant real time: its first call is not at the real time priority. *)
Lemma init_queue_second_bringup_starts_high :
  exists out1 out2,
    d12_init (platform reject_realtime) sample_base 0 queueDesc_init
      (d12_create 1) = Some out1
    /\ init_result out1 = true
    /\ d12_init (platform accept_all) sample_base 0 (init_queueDesc out1)
         (init_this out1) = Some out2
    /\ init_result out2 = true
    /\ priorities (init_calls out2) = [D3D12_COMMAND_QUEUE_PRIORITY_HIGH]
    /\ hd_error (priorities (init_calls out2))
       <> Some D3D12_COMMAND_QUEUE_PRIORITY_GLOBAL_REALTIME.
Proof.
  eexists. eexists. split; [vm_compute; reflexivity|].
  split; [reflexivity|]. split; [vm_compute; reflexivity|].
  split; [reflexivity|]. split; [reflexivity | vm_compute; congruence].
Qed.

(** A driver that refuses both priorities: two calls, and [d12_init] fails at
    the queue, leaving high priority in [queueDesc]. *)
Example init_queue_refused :
  exists out,
    d12_init (platform reject_all) sample_base 0 queueDesc_init (d12_create 1)
    = Some out
    /\ init_result out = false /\ init_stage out = QueueFailed
    /\ priorities (init_calls out)
       = [D3D12_COMMAND_QUEUE_PRIORITY_GLOBAL_REALTIME;
          D3D12_COMMAND_QUEUE_PRIORITY_HIGH]
    /\ Priority (init_queueDesc out) = D3D12_COMMAND_QUEUE_PRIORITY_HIGH.
Proof. eexists. split; [vm_compute; reflexivity|]. repeat split. Qed.

(** ** Pointer shape relay *)

(** Every call hands the event over once.  Without a new shape nothing else
    happens; with a buffer from the pool, the smaller of its capacity and
    the shape's size is copied into it; without one, the flag is cleared,
    and the copy is still made, to the address and for the size the locals
    hold. *)
Lemma updatePointer_cases
    (pool : PointerBuffer) (pointer : CapturePointer) (shape shapeSize : Z) :
  let pointer' := fst (d12_updatePointer pool pointer shape shapeSize) in
  let evs := snd (d12_updatePointer pool pointer shape shapeSize) in
  posted evs = [pointer']
  /\ (shapeUpdate pointer = false ->
      pointer' = pointer /\ evs = [EvPostPointerBuffer pointer])
  /\ (shapeUpdate pointer = true -> pb_ok pool = true ->
      pointer' = pointer
      /\ evs = [EvGetPointerBuffer true;
                EvMemcpy (pb_dst pool) shape (Z.min (pb_dstSize pool) shapeSize);
                EvPostPointerBuffer pointer])
  /\ (shapeUpdate pointer = true -> pb_ok pool = false ->
      pointer' = clear_shapeUpdate pointer
      /\ evs = [EvGetPointerBuffer false;
                EvMemcpy (pb_dst pool) shape (Z.min (pb_dstSize pool) shapeSize);
                EvPostPointerBuffer (clear_shapeUpdate pointer)]).
Proof.
  cbv zeta. unfold d12_updatePointer. rewrite min_spec.
  destruct (shapeUpdate pointer), (pb_ok pool); cbn;
    repeat split; intros; try discriminate; reflexivity.
Qed.

(** C6.  A new shape, and a pool that has no buffer: the event reaches the
    consumer once, with the flag cleared, but before that [memcpy] is called
    on the locals the pool did not set, here for 64 bytes. *)
Theorem updatePointer_copies_without_buffer :
  shapeUpdate shape_event = true
  /\ pb_ok pool_fail = false
  /\ d12_updatePointer pool_fail shape_event 0x2000 4096
     = (clear_shapeUpdate shape_event,
        [EvGetPointerBuffer false;
         EvMemcpy 0x7ffe1000 0x2000 64;
         EvPostPointerBuffer (clear_shapeUpdate shape_event)])
  /\ bytes_copied (snd (d12_updatePointer pool_fail shape_event 0x2000 4096))
     = 64
  /\ posted (snd (d12_updatePointer pool_fail shape_event 0x2000 4096))
     = [clear_shapeUpdate shape_event].
Proof. repeat split. Qed.

(** With a buffer of 16384 bytes, a shape of 4096 bytes is copied whole and
    the event is handed over as it came. *)
Example updatePointer_with_buffer :
  d12_updatePointer pool_ok shape_event 0x2000 4096
  = (shape_event,
     [EvGetPointerBuffer true;
      EvMemcpy 0x100900000 0x2000 4096;
      EvPostPointerBuffer shape_event]).
Proof. reflexivity. Qed.

(** * Further properties *)

(** ** Frame resource cache: bounds, frame and reuse *)

Lemma frameBufferToResource_in_bounds
    (get_data : FrameBuffer -> Z) (device : Device) (i : nat)
    (frameBuffer : FrameBuffer) (size : Z) (w : World) :
  is_Some (d12_frameBufferToResource get_data device i frameBuffer size w) ->
  (i < length (frameBuffers (this w)))%nat.
Proof.
  unfold d12_frameBufferToResource.
  destruct (frameBuffers (this w) !! i) as [fb|] eqn:Hi.
  - intros _. eapply lookup_lt_Some; eauto.
  - intros [x Hx]. discriminate.
Qed.

(** What a call leaves in its slot, and that it leaves the rest alone. *)
Lemma frameBufferToResource_state
    (get_data : FrameBuffer -> Z) (device : Device) (i : nat)
    (frameBuffer : FrameBuffer) (size : Z) (w : World)
    (res : option ID3D12Resource) (w' : World) :
  d12_frameBufferToResource get_data device i frameBuffer size w
  = Some (res, w') ->
  exists fb fb',
    frameBuffers (this w) !! i = Some fb
    /\ this w' = with_frameBuffers (<[i := fb']> (frameBuffers (this w))) (this w)
    /\ (res = None \/ fb_resource fb' = res)
    /\ ((fb' = fb /\ is_setup fb frameBuffer size = true)
        \/ (fb_size fb' = size /\ fb_frameBuffer fb' = frameBuffer
            /\ is_setup fb frameBuffer size = false)).
Proof.
  unfold d12_frameBufferToResource.
  destruct (frameBuffers (this w) !! i) as [fb|] eqn:Hi; [|discriminate].
  destruct (is_setup fb frameBuffer size) eqn:Hs.
  - assert (Hid : this w
                  = with_frameBuffers (<[i := fb]> (frameBuffers (this w))) (this w)).
    { rewrite list_insert_id by exact Hi. destruct (this w). reflexivity. }
    destruct (fb_resource fb) as [r|] eqn:Hr; intros [= <- <-];
      exists fb, fb; cbn [this emit]; repeat split; auto.
  - cbn [this set_frameBuffer ivshmemBase].
    destruct (device _ _) as [hr r].
    destruct (FAILED hr); intros [= <- <-];
      cbn [this emit set_frameBuffer frameBuffers].
    + eexists fb, _. split; [reflexivity|]. split; [reflexivity|].
      split; [left; reflexivity|]. right.
      split; [reflexivity|]. split; [reflexivity | exact Hs].
    + eexists fb, _. split; [reflexivity|].
      rewrite list_insert_insert_eq. split; [reflexivity|].
      split; [right; reflexivity|]. right.
      split; [reflexivity|]. split; [reflexivity | exact Hs].
Qed.

(** X1.  [d12_frameBufferToResource] is defined exactly for the indices of
    [this->frameBuffers].  A call keeps the number of slots, every slot but
    its own, the shared memory base and the format tracking. *)
Theorem frameBufferToResource_frame
    (get_data : FrameBuffer -> Z) (device : Device) (i : nat)
    (frameBuffer : FrameBuffer) (size : Z) (w : World) :
  (is_Some (d12_frameBufferToResource get_data device i frameBuffer size w)
   <-> (i < length (frameBuffers (this w)))%nat)
  /\ forall res w',
       d12_frameBufferToResource get_data device i frameBuffer size w
       = Some (res, w') ->
       length (frameBuffers (this w')) = length (frameBuffers (this w))
       /\ (forall j, j <> i ->
           frameBuffers (this w') !! j = frameBuffers (this w) !! j)
       /\ ivshmemBase (this w') = ivshmemBase (this w)
       /\ lastFormat (this w') = lastFormat (this w)
       /\ formatVer (this w') = formatVer (this w)
       /\ debug (this w') = debug (this w).
Proof.
  split.
  - split; [apply frameBufferToResource_in_bounds
           | apply frameBufferToResource_defined].
  - intros res w' Hrun.
    destruct (frameBufferToResource_state _ _ _ _ _ _ _ _ Hrun)
      as (fb & fb' & _ & -> & _).
    cbn. rewrite length_insert. repeat split.
    intros j Hj. apply list_lookup_insert_ne. congruence.
Qed.

(** Two slots: a request on slot 1 leaves slot 0 and the count alone, and
    slot 2 does not exist. *)
Lemma frameBufferToResource_frame_witness :
  exists res w',
    d12_frameBufferToResource sample_get_data device_ok 1 bufferB 1024
      (with_this (with_frameBuffers [slotA; zero_slot] (this world_cached))
         world_cached) = Some (res, w')
    /\ frameBuffers (this w') !! 0%nat = Some slotA
    /\ length (frameBuffers (this w')) = 2%nat
    /\ ~ is_Some (d12_frameBufferToResource sample_get_data device_ok 2 bufferB
                    1024 w').
Proof.
  set (w := with_this (with_frameBuffers [slotA; zero_slot] (this world_cached))
              world_cached).
  destruct (frameBufferToResource_frame sample_get_data device_ok 1 bufferB 1024 w)
    as [[_ Hdef] Hframe].
  destruct Hdef as [[res w'] Hrun]; [cbn; lia|].
  destruct (Hframe res w' Hrun) as (Hlen & Hother & _).
  exists res, w'. split; [exact Hrun|].
  split; [rewrite Hother by discriminate; reflexivity|].
  split; [rewrite Hlen; reflexivity|].
  intros Hs.
  apply (frameBufferToResource_frame sample_get_data device_ok 2 bufferB 1024 w')
    in Hs.
  rewrite Hlen in Hs. cbn in Hs. lia.
Defined.

(** An empty slot sends every request to the device. *)
Lemma frameBufferToResource_empty_slot
    (get_data : FrameBuffer -> Z) (device : Device) (i : nat)
    (frameBuffer : FrameBuffer) (size : Z) (w : World) (fb : FrameBufferSlot) :
  frameBuffers (this w) !! i = Some fb ->
  fb_resource fb = None ->
  let off := to_uint64 (get_data frameBuffer - ivshmemBase (this w)) in
  exists res w',
    d12_frameBufferToResource get_data device i frameBuffer size w
    = Some (res, w')
    /\ (exists rest,
          trace w' = trace w
            ++ EvCreatePlacedResource off (placed_desc size)
                 D3D12_RESOURCE_STATE_COPY_DEST
                 (fst (device off (placed_desc size))) :: rest)
    /\ (res = None <-> FAILED (fst (device off (placed_desc size))) = true).
Proof.
  intros Hi Hr off.
  assert (Hs : is_setup fb frameBuffer size = false)
    by (unfold is_setup; rewrite Hr; reflexivity).
  pose proof (frameBufferToResource_miss get_data device i frameBuffer size
                w fb Hi Hs) as H.
  cbv zeta in H. unfold heap_offset in H. fold off in H.
  destruct (FAILED (fst (device off (placed_desc size)))) eqn:Hf.
  - eexists. eexists. split; [exact H|]. cbn [trace emit set_frameBuffer].
    split; [exists []; reflexivity | split; reflexivity].
  - eexists. eexists. split; [exact H|]. cbn [trace emit set_frameBuffer].
    split; [eexists [_]; rewrite <- app_assoc; reflexivity|].
    split; discriminate.
Qed.

(** X2.  A slot without a resource never answers from the cache: whatever
    the frame buffer and the size, also the zero ones [calloc] left in the
    slot, the device is asked, and the call returns [NULL] exactly when the
    device fails. *)
Theorem frameBufferToResource_first_use
    (get_data : FrameBuffer -> Z) (device : Device) (i : nat)
    (frameBuffer : FrameBuffer) (size : Z) (w : World) (fb : FrameBufferSlot) :
  frameBuffers (this w) !! i = Some fb ->
  fb_resource fb = None ->
  let off := to_uint64 (get_data frameBuffer - ivshmemBase (this w)) in
  exists res w',
    d12_frameBufferToResource get_data device i frameBuffer size w
    = Some (res, w')
    /\ (exists rest,
          trace w' = trace w
            ++ EvCreatePlacedResource off (placed_desc size)
                 D3D12_RESOURCE_STATE_COPY_DEST
                 (fst (device off (placed_desc size))) :: rest)
    /\ (res = None <-> FAILED (fst (device off (placed_desc size))) = true).
Proof. apply frameBufferToResource_empty_slot. Qed.

(** The slot of [world_fresh], asked for frame buffer 0 and size 0. *)
Lemma frameBufferToResource_first_use_witness :
  exists res w' rest,
    d12_frameBufferToResource sample_get_data device_ok 0 0 0 world_fresh
    = Some (res, w')
    /\ trace w' = EvCreatePlacedResource
                    (to_uint64 (sample_get_data 0 - sample_base))
                    (placed_desc 0) D3D12_RESOURCE_STATE_COPY_DEST S_OK :: rest
    /\ res <> None.
Proof.
  destruct (frameBufferToResource_first_use sample_get_data device_ok 0 0 0
              world_fresh zero_slot eq_refl eq_refl)
    as (res & w' & Hrun & [rest Htr] & Hres).
  exists res, w', rest. split; [exact Hrun|]. split; [exact Htr|].
  intros Hn. apply Hres in Hn. discriminate.
Defined.

(** X3.  After a call that returned a resource, a request on the same slot
    for the same frame buffer and no more bytes returns that resource again,
    with one more reference and without a call to the device; the recorded
    size stays, so requests up to the first size keep being answered from
    the cache. *)
Theorem frameBufferToResource_repeat
    (get_data : FrameBuffer -> Z) (device device' : Device) (i : nat)
    (frameBuffer : FrameBuffer) (size size' : Z) (w w1 : World)
    (r : ID3D12Resource) :
  d12_frameBufferToResource get_data device i frameBuffer size w
  = Some (Some r, w1) ->
  size' <= size ->
  d12_frameBufferToResource get_data device' i frameBuffer size' w1
  = Some (Some r, emit (EvAddRef r) w1)
  /\ d12_frameBufferToResource get_data device' i frameBuffer size
       (emit (EvAddRef r) w1)
     = Some (Some r, emit (EvAddRef r) (emit (EvAddRef r) w1)).
Proof.
  intros Hrun Hle.
  destruct (frameBufferToResource_state _ _ _ _ _ _ _ _ Hrun)
    as (fb & fb' & Hi & Hthis & Hres & Hcase).
  destruct Hres as [Hres|Hres]; [discriminate|].
  assert (Hslot : frameBuffers (this w1) !! i = Some fb').
  { rewrite Hthis. cbn. apply list_lookup_insert_eq.
    eapply lookup_lt_Some; eauto. }
  assert (Hfb : fb_frameBuffer fb' = frameBuffer /\ size <= fb_size fb').
  { destruct Hcase as [[-> Hs]|(Hs1 & Hs2 & _)].
    - apply is_setup_true in Hs. tauto.
    - split; [exact Hs2 | lia]. }
  destruct Hfb as [Hfb Hsz]. split.
  - apply (frameBufferToResource_hit _ _ _ _ _ _ fb'); auto.
    apply is_setup_true. split; [eauto|]. split; [exact Hfb | lia].
  - apply (frameBufferToResource_hit _ _ _ _ _ _ fb'); auto.
    apply is_setup_true. split; [eauto|]. split; [exact Hfb | lia].
Qed.

(** A resource of 4096 bytes placed for [bufferA], then asked for again with
    1024 bytes, with a device that would fail. *)
Lemma frameBufferToResource_repeat_witness :
  exists r w1,
    d12_frameBufferToResource sample_get_data device_ok 0 bufferA 4096 world_fresh
    = Some (Some r, w1)
    /\ d12_frameBufferToResource sample_get_data device_fail 0 bufferA 1024 w1
       = Some (Some r, emit (EvAddRef r) w1).
Proof.
  assert (Hrun : exists r w1,
             d12_frameBufferToResource sample_get_data device_ok 0 bufferA 4096
               world_fresh = Some (Some r, w1))
    by (eexists; eexists; vm_compute; reflexivity).
  destruct Hrun as (r & w1 & Hrun). exists r, w1. split; [exact Hrun|].
  apply (frameBufferToResource_repeat sample_get_data device_ok device_fail 0
           bufferA 4096 1024 world_fresh w1 r Hrun).
  discriminate.
Defined.

(** ** Capture pipeline: what the two calls share *)

Lemma with_this_id w : with_this (this w) w = w.
Proof. destruct w. reflexivity. Qed.

Lemma with_frameBuffers_id t : with_frameBuffers (frameBuffers t) t = t.
Proof. destruct t. reflexivity. Qed.

(** [d12_waitFrame] neither reads nor writes the frame buffer slots. *)
Lemma waitFrame_with_frameBuffers
    (backend : D12Backend) (i : nat) (frame : CaptureFrame) (maxFrameSize : Z)
    (t : D12Interface) (slots : list FrameBufferSlot)
    (result : CaptureResult) (frame' : CaptureFrame) (t' : D12Interface) :
  d12_waitFrame backend i frame maxFrameSize t = Some (result, frame', t') ->
  d12_waitFrame backend i frame maxFrameSize (with_frameBuffers slots t)
  = Some (result, frame', with_frameBuffers slots t').
Proof.
  unfold d12_waitFrame, _ID3D12Resource_GetDesc.
  destruct (fetch backend i) as [src|]; [|intros [= <- <- <-]; reflexivity].
  destruct (_ =? 0); [discriminate|]. cbn [lastFormat with_frameBuffers].
  destruct (format_changed _ _); intros [= <- <- <-]; reflexivity.
Qed.

(** [d12_frameBufferToResource] reads the slots and the shared memory base
    only. *)
Lemma frameBufferToResource_with_this
    (get_data : FrameBuffer -> Z) (device : Device) (i : nat)
    (frameBuffer : FrameBuffer) (size : Z) (w : World) (t : D12Interface)
    (res : option ID3D12Resource) (w1 : World) :
  frameBuffers t = frameBuffers (this w) ->
  ivshmemBase t = ivshmemBase (this w) ->
  d12_frameBufferToResource get_data device i frameBuffer size w
  = Some (res, w1) ->
  d12_frameBufferToResource get_data device i frameBuffer size (with_this t w)
  = Some (res, with_this (with_frameBuffers (frameBuffers (this w1)) t) w1).
Proof.
  intros Hfb Hbase. unfold d12_frameBufferToResource.
  cbn [this with_this]. rewrite Hfb.
  destruct (frameBuffers (this w) !! i) as [fb|]; [|discriminate].
  destruct (is_setup fb frameBuffer size).
  - destruct (fb_resource fb) as [r|]; intros [= <- <-];
      cbn [this emit]; rewrite <- Hfb, with_frameBuffers_id; reflexivity.
  - unfold set_frameBuffer, emit, with_this, with_frameBuffers.
    cbn [this trace ivshmemBase lastFormat formatVer debug frameBuffers].
    rewrite Hbase, Hfb.
    destruct (device _ _) as [hr r].
    destruct (FAILED hr); intros [= <- <-];
      cbn [this trace ivshmemBase lastFormat formatVer debug frameBuffers];
      rewrite ?list_insert_insert_eq; reflexivity.
Qed.

Lemma getFrame_with_this
    (get_data : FrameBuffer -> Z) (device : Device) (backend : D12Backend)
    (i : nat) (frameBuffer : FrameBuffer) (maxFrameSize : Z) (w : World)
    (t : D12Interface) (result : CaptureResult) (w' : World) :
  frameBuffers t = frameBuffers (this w) ->
  ivshmemBase t = ivshmemBase (this w) ->
  d12_getFrame get_data device backend i frameBuffer maxFrameSize w
  = Some (result, w') ->
  d12_getFrame get_data device backend i frameBuffer maxFrameSize (with_this t w)
  = Some (result, with_this (with_frameBuffers (frameBuffers (this w')) t) w').
Proof.
  intros Hfb Hbase. unfold d12_getFrame.
  destruct (fetch backend i) as [src|].
  2:{ intros [= <- <-]. rewrite <- Hfb, with_frameBuffers_id. reflexivity. }
  destruct (d12_frameBufferToResource _ _ _ _ _ w) as [[res w1]|] eqn:Hc;
    [|discriminate].
  rewrite (frameBufferToResource_with_this _ _ _ _ _ _ t _ _ Hfb Hbase Hc).
  destruct res as [dst|]; [|intros [= <- <-]; reflexivity].
  destruct (negb _); intros [= <- <-]; reflexivity.
Qed.

(** [d12_getFrame] writes the frame buffer slots only. *)
Lemma getFrame_this
    (get_data : FrameBuffer -> Z) (device : Device) (backend : D12Backend)
    (i : nat) (frameBuffer : FrameBuffer) (maxFrameSize : Z) (w : World)
    (result : CaptureResult) (w' : World) :
  d12_getFrame get_data device backend i frameBuffer maxFrameSize w
  = Some (result, w') ->
  this w' = with_frameBuffers (frameBuffers (this w')) (this w).
Proof.
  intros Hrun.
  assert (Hc : forall res w1,
             d12_frameBufferToResource get_data device i frameBuffer
               (to_uint maxFrameSize) w = Some (res, w1) ->
             this w1 = with_frameBuffers (frameBuffers (this w1)) (this w)).
  { intros res w1 H.
    destruct (frameBufferToResource_state _ _ _ _ _ _ _ _ H)
      as (fb & fb' & _ & -> & _). reflexivity. }
  destruct (getFrame_cases _ _ _ _ _ _ _ _ _ Hrun)
    as [(_ & _ & ->)
       |[(src & w1 & _ & H & _ & ->)
        |[(src & dst & w1 & _ & H & _ & _ & Ht & _)
         |(src & dst & w1 & _ & H & _ & _ & Ht & _)]]].
  - symmetry. apply with_frameBuffers_id.
  - eapply Hc; eauto.
  - rewrite Ht. eapply Hc; eauto.
  - rewrite Ht. eapply Hc; eauto.
Qed.

(** X4.  [d12_waitFrame] and [d12_getFrame] work on separate parts of the
    interface: the first on the format and its version, the second on the
    frame buffer slots.  Either order of the two calls gives the same
    results, the same descriptor, the same events and the same interface. *)
Theorem waitFrame_getFrame_commute
    (get_data : FrameBuffer -> Z) (device : Device)
    (bw : D12Backend) (iw : nat) (frame : CaptureFrame) (mw : Z)
    (bg : D12Backend) (ig : nat) (frameBuffer : FrameBuffer) (mg : Z)
    (w : World)
    (r1 : CaptureResult) (frame1 : CaptureFrame) (t1 : D12Interface)
    (r2 : CaptureResult) (w2 : World) :
  d12_waitFrame bw iw frame mw (this w) = Some (r1, frame1, t1) ->
  d12_getFrame get_data device bg ig frameBuffer mg w = Some (r2, w2) ->
  let final := with_frameBuffers (frameBuffers (this w2)) t1 in
  d12_waitFrame bw iw frame mw (this w2) = Some (r1, frame1, final)
  /\ d12_getFrame get_data device bg ig frameBuffer mg (with_this t1 w)
     = Some (r2, with_this final w2)
  /\ lastFormat (this w2) = lastFormat (this w)
  /\ formatVer (this w2) = formatVer (this w)
  /\ frameBuffers t1 = frameBuffers (this w)
  /\ ivshmemBase t1 = ivshmemBase (this w).
Proof.
  intros Hw Hg final.
  pose proof (getFrame_this _ _ _ _ _ _ _ _ _ Hg) as Ht2.
  assert (Ht1 : frameBuffers t1 = frameBuffers (this w)
                /\ ivshmemBase t1 = ivshmemBase (this w)).
  { rewrite (waitFrame_state _ _ _ _ _ _ _ _ Hw).
    destruct (fetch bw iw); [destruct (format_changed _ _)|]; auto. }
  destruct Ht1 as [Hfb Hbase].
  split; [|split; [|split; [|split; [|split]]]]; auto.
  - rewrite Ht2. apply waitFrame_with_frameBuffers. exact Hw.
  - apply getFrame_with_this; assumption.
  - rewrite Ht2. reflexivity.
  - rewrite Ht2. reflexivity.
Qed.

(** A first frame of 1920 by 1080, described and fetched in either order. *)
Lemma waitFrame_getFrame_commute_witness :
  exists frame1 t1 w2,
    d12_waitFrame (backend_ready CAPTURE_RESULT_OK) 0 frame_blank 8388608
      (this world_fresh) = Some (CAPTURE_RESULT_OK, frame1, t1)
    /\ d12_getFrame sample_get_data device_ok (backend_ready CAPTURE_RESULT_OK)
         0 bufferA 8388608 world_fresh = Some (CAPTURE_RESULT_OK, w2)
    /\ d12_waitFrame (backend_ready CAPTURE_RESULT_OK) 0 frame_blank 8388608
         (this w2)
       = Some (CAPTURE_RESULT_OK, frame1,
               with_frameBuffers (frameBuffers (this w2)) t1)
    /\ formatVer (this w2) = 0 /\ formatVer t1 = 1.
Proof.
  assert (Hw : exists frame1 t1,
             d12_waitFrame (backend_ready CAPTURE_RESULT_OK) 0 frame_blank
               8388608 (this world_fresh)
             = Some (CAPTURE_RESULT_OK, frame1, t1) /\ formatVer t1 = 1)
    by (eexists; eexists; split; vm_compute; reflexivity).
  assert (Hg : exists w2,
             d12_getFrame sample_get_data device_ok
               (backend_ready CAPTURE_RESULT_OK) 0 bufferA 8388608 world_fresh
             = Some (CAPTURE_RESULT_OK, w2))
    by (eexists; vm_compute; reflexivity).
  destruct Hw as (frame1 & t1 & Hw & Hv). destruct Hg as (w2 & Hg).
  destruct (waitFrame_getFrame_commute _ _ _ _ _ _ _ _ _ _ _ _ _ _ _ _ Hw Hg)
    as (H1 & _ & _ & H4 & _).
  exists frame1, t1, w2. repeat split; auto.
Defined.

(** ** Capture pipeline: the descriptor *)

Lemma waitFrame_ok_inv
    (backend : D12Backend) (i : nat) (frame : CaptureFrame)
    (maxFrameSize : Z) (t : D12Interface)
    (frame' : CaptureFrame) (t' : D12Interface) :
  d12_waitFrame backend i frame maxFrameSize t
  = Some (CAPTURE_RESULT_OK, frame', t') ->
  exists src,
    fetch backend i = Some src
    /\ to_uint64 (Width (res_desc src) * 4) <> 0
    /\ frame_formatVer frame' = formatVer t'
    /\ frameHeight frame' = Height (res_desc src)
    /\ dataHeight frame'
       = min (to_uint (maxFrameSize / to_uint64 (Width (res_desc src) * 4)))
             (Height (res_desc src))
    /\ truncated frame'
       = (to_uint (maxFrameSize / to_uint64 (Width (res_desc src) * 4))
          <? Height (res_desc src))
    /\ pitch frame' = to_uint (to_uint64 (Width (res_desc src) * 4)).
Proof.
  unfold d12_waitFrame, _ID3D12Resource_GetDesc.
  destruct (fetch backend i) as [src|]; [|discriminate].
  destruct (Z.eqb_spec (to_uint64 (Width (res_desc src) * 4)) 0) as [|Hnz];
    [discriminate|].
  intros [= <- <-]. exists src. cbn. repeat split. exact Hnz.
Qed.

Lemma to_uint_le z : 0 <= z -> to_uint z <= z.
Proof. intros H. unfold to_uint. apply Z.mod_le; lia. Qed.

(** The rows announced fit, and the flag tells whether rows are missing. *)
Lemma waitFrame_rows_fit
    (backend : D12Backend) (i : nat) (frame : CaptureFrame)
    (maxFrameSize : Z) (t : D12Interface)
    (frame' : CaptureFrame) (t' : D12Interface) :
  d12_waitFrame backend i frame maxFrameSize t
  = Some (CAPTURE_RESULT_OK, frame', t') ->
  0 <= maxFrameSize ->
  dataHeight frame' * pitch frame' <= maxFrameSize
  /\ dataHeight frame' <= frameHeight frame'
  /\ (truncated frame' = true <-> dataHeight frame' < frameHeight frame').
Proof.
  intros Hrun Hm.
  destruct (waitFrame_ok_inv _ _ _ _ _ _ _ Hrun)
    as (src & _ & Hnz & _ & Hfh & Hdh & Htr & Hpi).
  rewrite Hdh, Htr, Hpi, Hfh, min_spec.
  set (row := to_uint64 (Width (res_desc src) * 4)) in *.
  set (h := Height (res_desc src)).
  pose proof (to_uint64_range (Width (res_desc src) * 4)) as Hrow.
  fold row in Hrow.
  assert (Hq : 0 <= maxFrameSize / row) by (apply Z.div_pos; lia).
  pose proof (to_uint_le _ Hq) as Hrows.
  pose proof (to_uint_range (maxFrameSize / row)) as Hr1.
  pose proof (to_uint_le row ltac:(lia)) as Hp.
  pose proof (to_uint_range row) as Hp1.
  pose proof (Z.mul_div_le maxFrameSize row ltac:(lia)) as Hfit.
  split; [|split; [lia|rewrite Z.ltb_lt; lia]].
  destruct (Z.le_gt_cases 0 (Z.min (to_uint (maxFrameSize / row)) h)); [|nia].
  apply Z.le_trans with (to_uint (maxFrameSize / row) * row); [|nia].
  apply Z.mul_le_mono_nonneg; lia.
Qed.

(** X5.  Whatever the resource and [maxFrameSize]: the rows a descriptor
    announces, at its pitch, fit in [maxFrameSize]; they are no more than
    the rows of the frame; and the frame is marked truncated exactly when
    they are fewer. *)
Theorem waitFrame_data_fits
    (backend : D12Backend) (i : nat) (frame : CaptureFrame)
    (maxFrameSize : Z) (t : D12Interface)
    (frame' : CaptureFrame) (t' : D12Interface) :
  d12_waitFrame backend i frame maxFrameSize t
  = Some (CAPTURE_RESULT_OK, frame', t') ->
  0 <= maxFrameSize ->
  dataHeight frame' * pitch frame' <= maxFrameSize
  /\ dataHeight frame' <= frameHeight frame'
  /\ (truncated frame' = true <-> dataHeight frame' < frameHeight frame').
Proof. apply waitFrame_rows_fit. Qed.

(** A frame of 1920 by 1080 with room for 1 MiB: 136 rows of 7680 bytes. *)
Lemma waitFrame_data_fits_witness :
  exists frame' t',
    d12_waitFrame (backend_ready CAPTURE_RESULT_OK) 0 frame_blank 1048576
      (d12_create 1) = Some (CAPTURE_RESULT_OK, frame', t')
    /\ dataHeight frame' = 136
    /\ dataHeight frame' * pitch frame' <= 1048576
    /\ truncated frame' = true.
Proof.
  assert (Hrun : exists frame' t',
             d12_waitFrame (backend_ready CAPTURE_RESULT_OK) 0 frame_blank
               1048576 (d12_create 1) = Some (CAPTURE_RESULT_OK, frame', t')
             /\ dataHeight frame' = 136 /\ truncated frame' = true)
    by (eexists; eexists; split; [vm_compute; reflexivity | split; reflexivity]).
  destruct Hrun as (frame' & t' & Hrun & Hdh & Htr).
  destruct (waitFrame_data_fits _ _ _ _ _ _ _ Hrun) as (Hfit & _);
    [discriminate|].
  exists frame', t'. auto.
Defined.

Lemma format_changed_same a b c :
  format_changed a b = false -> format_changed c b = format_changed c a.
Proof.
  unfold format_changed. rewrite !orb_false_iff, !negb_false_iff, !Z.eqb_eq.
  intros [[-> ->] ->]. reflexivity.
Qed.

Lemma to_uint_succ_neq v : 0 <= v < 2 ^ 32 -> to_uint (v + 1) <> v.
Proof.
  intros Hv. unfold to_uint.
  destruct (Z.eq_dec v (2 ^ 32 - 1)) as [->|Hne].
  - vm_compute. discriminate.
  - rewrite Z.mod_small by lia. lia.
Qed.

(** X6.  The versions of two consecutive descriptors differ exactly when the
    second resource differs from the first in width, height or format: a
    consumer that compares versions sees every change of format, also across
    the wrap of the counter, and no other change. *)
Theorem waitFrame_version_signals_change
    (b1 b2 : D12Backend) (i1 i2 : nat) (frame : CaptureFrame) (m1 m2 : Z)
    (t t1 t2 : D12Interface) (frame1 frame2 : CaptureFrame)
    (src1 src2 : ID3D12Resource) :
  0 <= formatVer t < 2 ^ 32 ->
  fetch b1 i1 = Some src1 ->
  fetch b2 i2 = Some src2 ->
  d12_waitFrame b1 i1 frame m1 t = Some (CAPTURE_RESULT_OK, frame1, t1) ->
  d12_waitFrame b2 i2 frame1 m2 t1 = Some (CAPTURE_RESULT_OK, frame2, t2) ->
  (frame_formatVer frame2 <> frame_formatVer frame1
   <-> format_changed (res_desc src2) (res_desc src1) = true).
Proof.
  intros Hv Hf1 Hf2 H1 H2.
  destruct (waitFrame_ok_inv _ _ _ _ _ _ _ H1) as (s1 & Hs1 & _ & Hv1 & _).
  destruct (waitFrame_ok_inv _ _ _ _ _ _ _ H2) as (s2 & Hs2 & _ & Hv2 & _).
  rewrite Hv1, Hv2.
  pose proof (waitFrame_state _ _ _ _ _ _ _ _ H1) as Ht1.
  pose proof (waitFrame_state _ _ _ _ _ _ _ _ H2) as Ht2.
  rewrite Hf1 in Ht1. rewrite Hf2 in Ht2.
  assert (Hlast : format_changed (res_desc src2) (lastFormat t1)
                  = format_changed (res_desc src2) (res_desc src1)
                  /\ 0 <= formatVer t1 < 2 ^ 32).
  { destruct (format_changed (res_desc src1) (lastFormat t)) eqn:Hc; subst t1.
    - cbn. split; [reflexivity | apply to_uint_range].
    - split; [apply format_changed_same; exact Hc | exact Hv]. }
  destruct Hlast as [Hlast Hr1]. rewrite Hlast in Ht2.
  destruct (format_changed (res_desc src2) (res_desc src1)); subst t2.
  - cbn. split; [reflexivity|]. intros _. apply to_uint_succ_neq. exact Hr1.
  - split; [congruence | discriminate].
Qed.

(** 1080p, then 720p: versions 1 and 2. *)
Lemma waitFrame_version_signals_change_witness :
  exists frame1 t1 frame2 t2,
    d12_waitFrame (backend_with frame1080) 0 frame_blank 8388608 (d12_create 1)
    = Some (CAPTURE_RESULT_OK, frame1, t1)
    /\ d12_waitFrame (backend_with frame720) 0 frame1 8388608 t1
       = Some (CAPTURE_RESULT_OK, frame2, t2)
    /\ frame_formatVer frame2 <> frame_formatVer frame1.
Proof.
  assert (H1 : exists frame1 t1,
             d12_waitFrame (backend_with frame1080) 0 frame_blank 8388608
               (d12_create 1) = Some (CAPTURE_RESULT_OK, frame1, t1))
    by (eexists; eexists; vm_compute; reflexivity).
  destruct H1 as (frame1 & t1 & H1).
  assert (H2 : exists frame2 t2,
             d12_waitFrame (backend_with frame720) 0 frame1 8388608 t1
             = Some (CAPTURE_RESULT_OK, frame2, t2)).
  { pose proof (waitFrame_state _ _ _ _ _ _ _ _ H1) as Ht1. subst t1.
    eexists. eexists. vm_compute. reflexivity. }
  destruct H2 as (frame2 & t2 & H2).
  exists frame1, t1, frame2, t2. split; [exact H1|]. split; [exact H2|].
  apply (waitFrame_version_signals_change
           (backend_with frame1080) (backend_with frame720) 0 0 frame_blank
           8388608 8388608 (d12_create 1) t1 t2 frame1 frame2
           frame1080 frame720);
    [split; [discriminate | reflexivity] | reflexivity | reflexivity
    | exact H1 | exact H2 | reflexivity].
Defined.

(** X7.  For a frame that [d12_waitFrame] marks truncated, a
    [d12_getFrame] with the same [maxFrameSize] that succeeds ends by
    setting the write pointer to the size of the whole frame, which is more
    than [maxFrameSize] and more than the rows the descriptor announced. *)
Theorem truncated_frame_write_ptr
    (get_data : FrameBuffer -> Z) (device : Device) (backend : D12Backend)
    (i : nat) (frame : CaptureFrame) (maxFrameSize : Z) (t : D12Interface)
    (frame' : CaptureFrame) (t' : D12Interface)
    (frameBuffer : FrameBuffer) (w w' : World) (src : ID3D12Resource) :
  fetch backend i = Some src ->
  0 < Width (res_desc src) -> Width (res_desc src) * 4 < 2 ^ 32 ->
  0 <= Height (res_desc src) < 2 ^ 32 ->
  0 <= maxFrameSize < 2 ^ 32 ->
  d12_waitFrame backend i frame maxFrameSize t
  = Some (CAPTURE_RESULT_OK, frame', t') ->
  truncated frame' = true ->
  d12_getFrame get_data device backend i frameBuffer maxFrameSize w
  = Some (CAPTURE_RESULT_OK, w') ->
  exists evs,
    trace w' = evs ++ [EvSetWritePtr frameBuffer
                         (Height (res_desc src) * Width (res_desc src) * 4)]
    /\ maxFrameSize < Height (res_desc src) * Width (res_desc src) * 4
    /\ dataHeight frame' * pitch frame'
       < Height (res_desc src) * Width (res_desc src) * 4.
Proof.
  intros Hf Hw Hp Hh Hm Hwait Htr Hget.
  destruct (waitFrame_ok_inv _ _ _ _ _ _ _ Hwait)
    as (s & Hs & _ & _ & _ & _ & Htr' & _).
  rewrite Hf in Hs. injection Hs as <-.
  rewrite Htr' in Htr. apply Z.ltb_lt in Htr.
  rewrite (to_uint64_small (Width (res_desc src) * 4)) in Htr by lia.
  assert (Hq : 0 <= maxFrameSize / (Width (res_desc src) * 4)
               <= maxFrameSize).
  { split; [apply Z.div_pos; lia|].
    apply Z.div_le_upper_bound; nia. }
  rewrite to_uint_small in Htr by lia.
  assert (Hlt : maxFrameSize
                < Height (res_desc src) * Width (res_desc src) * 4).
  { pose proof (Z.mul_succ_div_gt maxFrameSize (Width (res_desc src) * 4)
                  ltac:(lia)). nia. }
  destruct (getFrame_cases _ _ _ _ _ _ _ _ _ Hget)
    as [(_ & [=] & _)
       |[(? & ? & _ & _ & [=] & _)
        |[(? & ? & ? & _ & _ & Hs' & He & _)
         |(s & dst & w1 & Hs & _ & _ & _ & _ & Htrace)]]].
  { congruence. }
  rewrite Hf in Hs. injection Hs as <-.
  rewrite frame_bytes_exact in Htrace by nia.
  eexists (trace w1 ++ [_; _; _]).
  split; [rewrite Htrace, <- app_assoc; reflexivity|].
  split; [exact Hlt|].
  destruct (waitFrame_rows_fit _ _ _ _ _ _ _ Hwait) as (Hfit & _); lia.
Qed.

(** A frame of 1920 by 1080 with room for 1 MiB. *)
Lemma truncated_frame_write_ptr_witness :
  exists frame' t' w' evs,
    d12_waitFrame (backend_ready CAPTURE_RESULT_OK) 0 frame_blank 1048576
      (d12_create 1) = Some (CAPTURE_RESULT_OK, frame', t')
    /\ d12_getFrame sample_get_data device_ok (backend_ready CAPTURE_RESULT_OK)
         0 bufferA 1048576 world_fresh = Some (CAPTURE_RESULT_OK, w')
    /\ trace w' = evs ++ [EvSetWritePtr bufferA 8294400].
Proof.
  assert (Hwait : exists frame' t',
             d12_waitFrame (backend_ready CAPTURE_RESULT_OK) 0 frame_blank
               1048576 (d12_create 1) = Some (CAPTURE_RESULT_OK, frame', t')
             /\ truncated frame' = true)
    by (eexists; eexists; split; [vm_compute; reflexivity | reflexivity]).
  assert (Hget : exists w',
             d12_getFrame sample_get_data device_ok
               (backend_ready CAPTURE_RESULT_OK) 0 bufferA 1048576 world_fresh
             = Some (CAPTURE_RESULT_OK, w'))
    by (eexists; vm_compute; reflexivity).
  destruct Hwait as (frame' & t' & Hwait & Htr). destruct Hget as (w' & Hget).
  destruct (truncated_frame_write_ptr sample_get_data device_ok
              (backend_ready CAPTURE_RESULT_OK) 0 frame_blank 1048576
              (d12_create 1) frame' t' bufferA world_fresh w' frame1080)
    as (evs & Hevs & _);
    [reflexivity | reflexivity | reflexivity | split; [discriminate | reflexivity]
    | split; [discriminate | reflexivity] | exact Hwait | exact Htr | exact Hget |].
  exists frame', t', w', evs. auto.
Defined.

(** ** Adapter and output selection: failures and order *)

(** X8.  When the description of an adapter cannot be read, the selection
    fails there: adapters before it that were passed over do not matter, and
    adapters after it are not looked at, usable or not. *)
Theorem enumerateDevices_desc_failure
    (before : list IDXGIAdapter1) (a : IDXGIAdapter1)
    (after : list IDXGIAdapter1) :
  Forall (fun p => FAILED (fst (GetDesc1 p)) = false
                   /\ (blacklisted p = true
                       \/ first_attached (EnumOutputs p) = None)) before ->
  FAILED (fst (GetDesc1 a)) = true ->
  d12_enumerateDevices (before ++ a :: after) = None.
Proof.
  intros Hb Ha. rewrite enumerateDevices_skip by exact Hb.
  cbn [d12_enumerateDevices]. destruct (GetDesc1 a) as [hr desc].
  cbn [fst] in Ha. rewrite Ha. reflexivity.
Qed.

(** A blacklisted adapter, an adapter without a description, a GPU. *)
Lemma enumerateDevices_desc_failure_witness :
  d12_enumerateDevices [basic_render; broken_adapter; gpu] = None
  /\ d12_enumerateDevices [gpu] = Some (gpu, output 0xB200 true).
Proof.
  split; [|reflexivity].
  apply (enumerateDevices_desc_failure [basic_render] broken_adapter [gpu]).
  - constructor; [split; [reflexivity | left; reflexivity] | constructor].
  - reflexivity.
Defined.

(** X9.  The adapter selected is the first usable one, and the selection
    does not depend on what is enumerated after it: every adapter before it
    has a description and is on the blacklist or without an attached output,
    every output before the selected one is detached, and adapters added
    after the selected one change nothing. *)
Theorem enumerateDevices_selected_is_first
    (factory : IDXGIFactory2) (a : IDXGIAdapter1) (o : IDXGIOutput) :
  d12_enumerateDevices factory = Some (a, o) ->
  (exists before after obefore oafter,
     factory = before ++ a :: after
     /\ Forall (fun p => FAILED (fst (GetDesc1 p)) = false
                         /\ (blacklisted p = true
                             \/ Forall (fun q => AttachedToDesktop q = false)
                                       (EnumOutputs p))) before
     /\ EnumOutputs a = obefore ++ o :: oafter
     /\ Forall (fun q => AttachedToDesktop q = false) obefore)
  /\ forall more, d12_enumerateDevices (factory ++ more) = Some (a, o).
Proof.
  induction factory as [|p rest IH]; cbn [d12_enumerateDevices app];
    [discriminate|].
  destruct (GetDesc1 p) as [hr desc] eqn:Hd.
  destruct (FAILED hr) eqn:Hhr; [discriminate|].
  assert (Hpass : d12_enumerateDevices rest = Some (a, o) ->
                  (blacklisted p = true
                   \/ Forall (fun q => AttachedToDesktop q = false)
                             (EnumOutputs p)) ->
                  (exists before after obefore oafter,
                     p :: rest = before ++ a :: after
                     /\ Forall (fun p => FAILED (fst (GetDesc1 p)) = false
                                /\ (blacklisted p = true
                                    \/ Forall (fun q => AttachedToDesktop q = false)
                                              (EnumOutputs p))) before
                     /\ EnumOutputs a = obefore ++ o :: oafter
                     /\ Forall (fun q => AttachedToDesktop q = false) obefore)).
  { intros H Hp. destruct (IH H) as [(b & af & ob & oa & -> & Hb & Ho & Hob) _].
    exists (p :: b), af, ob, oa. split; [reflexivity|].
    split; [|auto]. constructor; [|exact Hb].
    rewrite Hd. cbn [fst]. auto. }
  destruct (skip desc) eqn:Hs.
  - intros H. split; [|intros more; apply (proj2 (IH H))].
    apply Hpass; [exact H|]. left. unfold blacklisted. rewrite Hd. exact Hs.
  - destruct (first_attached (EnumOutputs p)) as [q|] eqn:Hq.
    + intros [= <- <-]. split; [|reflexivity].
      apply first_attached_Some in Hq.
      destruct Hq as (ob & oa & Ho & Hob & _).
      exists [], rest, ob, oa. repeat split; auto.
    + intros H. split; [|intros more; apply (proj2 (IH H))].
      apply Hpass; [exact H|]. right. apply first_attached_None. exact Hq.
Qed.

(** The GPU behind a blacklisted and a headless adapter, with an unreadable
    adapter added at the end. *)
Lemma enumerateDevices_selected_is_first_witness :
  d12_enumerateDevices ([basic_render; headless_gpu; gpu] ++ [broken_adapter])
  = Some (gpu, output 0xB200 true).
Proof.
  apply (enumerateDevices_selected_is_first [basic_render; headless_gpu; gpu]).
  reflexivity.
Defined.

(** ** Device and queue bring-up: the whole of [d12_init] *)

Ltac init_cases :=
  unfold d12_init; rewrite retryCreateCommandQueue_two; cbv zeta;
  repeat match goal with
         | |- context [match d12_enumerateDevices ?f with _ => _ end] =>
           destruct (d12_enumerateDevices f) eqn:?
         | |- context [if ?b then _ else _] => destruct b eqn:?
         end.

(** [d12_init] always returns. *)
Lemma init_defined env base alignSize queueDesc t :
  exists out, d12_init env base alignSize queueDesc t = Some out.
Proof. init_cases; eexists; reflexivity. Qed.

(** X10.  [d12_init] returns [true] exactly when the factory, the selection,
    the debug interface if [debug] is set, the device, the queue at the
    priority held or, after a refusal at real time, at high priority, the
    command group, the heap and the backend all succeed. *)
Theorem init_succeeds_iff
    (env : InitEnv) (base alignSize : Z)
    (queueDesc : D3D12_COMMAND_QUEUE_DESC) (t : D12Interface) :
  exists out,
    d12_init env base alignSize queueDesc t = Some out
    /\ (init_result out = true <->
        FAILED (CreateDXGIFactory2 env) = false
        /\ is_Some (d12_enumerateDevices (factory env))
        /\ (debug t = true -> FAILED (D3D12GetDebugInterface env) = false)
        /\ FAILED (D3D12CreateDevice env) = false
        /\ (FAILED (CreateCommandQueue env queueDesc) = false
            \/ (Priority queueDesc
                = D3D12_COMMAND_QUEUE_PRIORITY_GLOBAL_REALTIME
                /\ FAILED (CreateCommandQueue env
                             (set_Priority D3D12_COMMAND_QUEUE_PRIORITY_HIGH
                                queueDesc)) = false))
        /\ d12_commandGroupCreate env = true
        /\ FAILED (OpenExistingHeapFromAddress env) = false
        /\ d12_backendInit env = true).
Proof.
  destruct (init_defined env base alignSize queueDesc t) as [out Hrun].
  exists out. split; [exact Hrun|]. revert Hrun.
  init_cases; intros [= <-]; cbn [init_result];
    repeat match goal with
           | H : _ && _ = true |- _ => apply andb_true_iff in H; destruct H
           | H : _ && _ = false |- _ => apply andb_false_iff in H; destruct H
           | H : (_ =? _) = true |- _ => apply Z.eqb_eq in H
           | H : (_ =? _) = false |- _ => apply Z.eqb_neq in H
           | H : negb _ = true |- _ => apply negb_true_iff in H
           | H : negb _ = false |- _ => apply negb_false_iff in H
           end;
    (split;
     [ try discriminate; intros _; repeat split; eauto; try congruence
     | try reflexivity;
       intros (? & [? ?] & Hdbg & ? & [?|[? ?]] & ? & ? & ?);
       try congruence;
       try (match goal with
            | Hd : debug _ = true |- _ => specialize (Hdbg Hd); congruence
            end) ]).
Qed.

(** Every step succeeds but real time is refused: [true].  The backend
    fails: [false]. *)
Lemma init_succeeds_iff_witness :
  (exists out,
     d12_init (platform reject_realtime) sample_base 0 queueDesc_init
       (d12_create 1) = Some out /\ init_result out = true)
  /\ (exists out,
        d12_init {| CreateDXGIFactory2 := S_OK; factory := [gpu];
                    D3D12GetDebugInterface := E_INVALIDARG;
                    D3D12CreateDevice := S_OK;
                    CreateCommandQueue := accept_all;
                    d12_commandGroupCreate := true;
                    OpenExistingHeapFromAddress := S_OK;
                    heapDesc_Alignment := 65536;
                    d12_backendInit := false |}
          sample_base 0 queueDesc_init (d12_create 1) = Some out
        /\ init_result out = false).
Proof.
  split.
  - destruct (init_succeeds_iff (platform reject_realtime) sample_base 0
                queueDesc_init (d12_create 1)) as (out & Hrun & Hiff).
    exists out. split; [exact Hrun|]. apply Hiff.
    repeat split; try reflexivity; try discriminate;
      try (eexists; reflexivity); right; split; reflexivity.
  - match goal with |- exists out, d12_init ?e _ _ _ _ = _ /\ _ =>
      destruct (init_succeeds_iff e sample_base 0 queueDesc_init (d12_create 1))
        as (out & Hrun & Hiff)
    end.
    exists out. split; [exact Hrun|].
    destruct (init_result out); [|reflexivity].
    destruct (proj1 Hiff eq_refl) as (_ & _ & _ & _ & _ & _ & _ & Hb).
    discriminate.
Defined.

(** [d12_init] keeps the format and its version. *)
Lemma init_keeps_format env base alignSize queueDesc t out :
  d12_init env base alignSize queueDesc t = Some out ->
  lastFormat (init_this out) = lastFormat t
  /\ formatVer (init_this out) = formatVer t.
Proof. init_cases; intros [= <-]; split; reflexivity. Qed.

(** X11.  What [d12_init] writes depends on the step at which it stops.  It
    never resets the format or its version.  It asks for no queue and keeps
    the static [queueDesc] when it stops before the queue.  It writes
    [this->ivshmemBase] once the command group exists, and [*alignSize] once
    the heap is open, with the alignment of the heap narrowed to the 32
    bits of an [unsigned]: both are written by a call that then fails at
    the backend, and a call that fails at the heap has written the base
    only. *)
Theorem init_writes
    (env : InitEnv) (base alignSize : Z)
    (queueDesc : D3D12_COMMAND_QUEUE_DESC) (t : D12Interface) :
  exists out,
    d12_init env base alignSize queueDesc t = Some out
    /\ lastFormat (init_this out) = lastFormat t
    /\ formatVer (init_this out) = formatVer t
    /\ debug (init_this out) = debug t
    /\ (init_result out = true <-> init_stage out = InitDone)
    /\ match init_stage out with
       | FactoryFailed | NoDevice | DebugInterfaceFailed | DeviceFailed =>
         init_calls out = [] /\ init_queueDesc out = queueDesc
         /\ ivshmemBase (init_this out) = ivshmemBase t
         /\ init_alignSize out = alignSize
       | QueueFailed | CommandGroupFailed =>
         ivshmemBase (init_this out) = ivshmemBase t
         /\ init_alignSize out = alignSize
       | HeapFailed =>
         ivshmemBase (init_this out) = base
         /\ init_alignSize out = alignSize
       | BackendFailed | InitDone =>
         ivshmemBase (init_this out) = base
         /\ init_alignSize out = heapDesc_Alignment env mod 2 ^ 32
       end.
Proof.
  init_cases; eexists; (split; [reflexivity|]); cbn;
    repeat split; try discriminate; reflexivity.
Qed.

(** A bring-up that fails at the backend, on an interface whose format
    version is 4294967295, with a heap alignment of 2^32 + 65536. *)
Lemma init_writes_witness :
  exists out,
    d12_init {| CreateDXGIFactory2 := S_OK; factory := [gpu];
                D3D12GetDebugInterface := S_OK;
                D3D12CreateDevice := S_OK;
                CreateCommandQueue := accept_all;
                d12_commandGroupCreate := true;
                OpenExistingHeapFromAddress := S_OK;
                heapDesc_Alignment := 4295032832;
                d12_backendInit := false |}
      0x200000000 4096 queueDesc_init interface_at_max = Some out
    /\ init_result out = false
    /\ init_alignSize out = 65536
    /\ ivshmemBase (init_this out) = 0x200000000
    /\ formatVer (init_this out) = 4294967295.
Proof.
  match goal with |- exists out, d12_init ?e ?b ?a ?q ?t = _ /\ _ =>
    destruct (init_writes e b a q t)
      as (out & Hrun & _ & Hv & _ & Hres & Hstage);
    assert (Hout : exists o, d12_init e b a q t = Some o
                             /\ init_stage o = BackendFailed)
      by (eexists; split; [vm_compute; reflexivity | vm_compute; reflexivity])
  end.
  destruct Hout as (o & Ho & Hs). rewrite Hrun in Ho. injection Ho as <-.
  rewrite Hs in Hstage, Hres. destruct Hstage as [Hb Ha].
  exists out. split; [exact Hrun|].
  split; [destruct (init_result out);
          [discriminate (proj1 Hres eq_refl) | reflexivity]|].
  split; [exact Ha|]. split; [exact Hb | exact Hv].
Defined.

(** Every call of a bring-up is for the queue description held, at its
    priority or, once, at high priority after real time. *)
Lemma init_calls_cases env base alignSize queueDesc t :
  exists out,
    d12_init env base alignSize queueDesc t = Some out
    /\ ((init_calls out = [] /\ init_queueDesc out = queueDesc)
        \/ (init_calls out = [attempt (CreateCommandQueue env) queueDesc]
            /\ init_queueDesc out = queueDesc)
        \/ (Priority queueDesc = D3D12_COMMAND_QUEUE_PRIORITY_GLOBAL_REALTIME
            /\ init_calls out
               = [attempt (CreateCommandQueue env) queueDesc;
                  attempt (CreateCommandQueue env)
                    (set_Priority D3D12_COMMAND_QUEUE_PRIORITY_HIGH queueDesc)]
            /\ init_queueDesc out
               = set_Priority D3D12_COMMAND_QUEUE_PRIORITY_HIGH queueDesc)).
Proof.
  init_cases; eexists; (split; [reflexivity|]); cbn [init_calls init_queueDesc];
    try (left; split; reflexivity);
    try (right; left; split; reflexivity);
    right; right;
    match goal with
    | H : _ && _ = true |- _ =>
      apply andb_true_iff in H; destruct H as [_ H]; apply Z.eqb_eq in H
    end;
    repeat split; assumption.
Qed.

Lemma priorities_app a b : priorities (a ++ b) = priorities a ++ priorities b.
Proof. apply map_app. Qed.

Lemma high_not_realtime queueDesc :
  Priority queueDesc = D3D12_COMMAND_QUEUE_PRIORITY_HIGH ->
  Priority queueDesc <> D3D12_COMMAND_QUEUE_PRIORITY_GLOBAL_REALTIME.
Proof. intros ->. discriminate. Qed.

(** Once [queueDesc] holds high priority, every bring-up asks for that
    description, at most once. *)
Lemma inits_high calls :
  forall queueDesc t,
    Priority queueDesc = D3D12_COMMAND_QUEUE_PRIORITY_HIGH ->
    exists outs,
      inits calls queueDesc t = Some outs
      /\ length outs = length calls
      /\ Forall (fun c => attempt_desc c = queueDesc) (all_calls outs)
      /\ Forall (fun out => (length (init_calls out) <= 1)%nat) outs.
Proof.
  induction calls as [|c rest IH]; intros queueDesc t Hp.
  - exists []. repeat split; constructor.
  - destruct (init_calls_cases (ic_env c) (ic_base c) (ic_alignSize c)
                queueDesc t) as (out & Hrun & Hcases).
    assert (Hq : init_queueDesc out = queueDesc
                 /\ Forall (fun c => attempt_desc c = queueDesc) (init_calls out)
                 /\ (length (init_calls out) <= 1)%nat).
    { destruct Hcases as [[-> ->]|[[-> ->]|(Hrt & _)]].
      - repeat split; [constructor | cbn; lia].
      - repeat split; [repeat constructor | cbn; lia].
      - exfalso. apply (high_not_realtime queueDesc Hp Hrt). }
    destruct Hq as (Hqd & Hall & Hlen).
    destruct (IH (init_queueDesc out) (init_this out))
      as (outs & Hr & Hl & Ha & Hn); [rewrite Hqd; exact Hp|].
    exists (out :: outs). cbn [inits]. rewrite Hrun, Hr.
    split; [reflexivity|]. split; [cbn; lia|].
    split; [|constructor; assumption].
    unfold all_calls. cbn [flat_map]. apply Forall_app. split; [exact Hall|].
    rewrite Hqd in Ha. exact Ha.
Qed.

Lemma priorities_all_same calls queueDesc :
  Forall (fun c => attempt_desc c = queueDesc) calls ->
  priorities calls = replicate (length calls) (Priority queueDesc).
Proof.
  induction 1 as [|c l Hc _ IH]; [reflexivity|].
  cbn. rewrite Hc. f_equal. exact IH.
Qed.

Lemma all_calls_cons out outs :
  all_calls (out :: outs) = init_calls out ++ all_calls outs.
Proof. reflexivity. Qed.

(** X12.  Over all the bring-ups of a process, whatever the platform answers
    in each: every queue asked for is a copy queue without flags, the
    priorities asked for are real time some number of times and then high
    priority only: once high priority has been asked for, real time is
    never tried again. *)
Theorem inits_priority_never_raised (calls : list InitCall) :
  forall queueDesc t,
    Priority queueDesc = D3D12_COMMAND_QUEUE_PRIORITY_GLOBAL_REALTIME ->
    exists outs,
      inits calls queueDesc t = Some outs
      /\ length outs = length calls
      /\ Forall (fun c => Type_ (attempt_desc c) = Type_ queueDesc
                          /\ q_Flags (attempt_desc c) = q_Flags queueDesc)
                (all_calls outs)
      /\ exists n m,
           priorities (all_calls outs)
           = replicate n D3D12_COMMAND_QUEUE_PRIORITY_GLOBAL_REALTIME
             ++ replicate m D3D12_COMMAND_QUEUE_PRIORITY_HIGH.
Proof.
  induction calls as [|c rest IH]; intros queueDesc t Hp.
  - exists []. split; [reflexivity|]. split; [reflexivity|].
    split; [constructor|]. exists 0%nat, 0%nat. reflexivity.
  - destruct (init_calls_cases (ic_env c) (ic_base c) (ic_alignSize c)
                queueDesc t) as (out & Hrun & Hcases).
    cbn [inits]. rewrite Hrun.
    destruct Hcases as [[Hc Hq]|[[Hc Hq]|(_ & Hc & Hq)]]; rewrite Hq.
    + destruct (IH queueDesc (init_this out) Hp)
        as (outs & -> & Hl & Ha & n & m & Hpr).
      exists (out :: outs). split; [reflexivity|]. split; [cbn; lia|].
      rewrite all_calls_cons, Hc. cbn [app].
      split; [exact Ha|]. exists n, m. exact Hpr.
    + destruct (IH queueDesc (init_this out) Hp)
        as (outs & -> & Hl & Ha & n & m & Hpr).
      exists (out :: outs). split; [reflexivity|]. split; [cbn; lia|].
      rewrite all_calls_cons, Hc. cbn [app].
      split; [constructor; [split; reflexivity | exact Ha]|].
      exists (S n), m. unfold priorities. cbn [map attempt attempt_desc].
      fold (priorities (all_calls outs)). rewrite Hpr, Hp. reflexivity.
    + destruct (inits_high rest
                  (set_Priority D3D12_COMMAND_QUEUE_PRIORITY_HIGH queueDesc)
                  (init_this out) eq_refl)
        as (outs & -> & Hl & Ha & _).
      exists (out :: outs). split; [reflexivity|]. split; [cbn; lia|].
      rewrite all_calls_cons, Hc. cbn [app].
      split.
      * constructor; [split; reflexivity|].
        constructor; [split; reflexivity|].
        eapply Forall_impl; [exact Ha|]. intros a ->. split; reflexivity.
      * exists 1%nat, (S (length (all_calls outs))).
        unfold priorities. cbn [map attempt attempt_desc].
        fold (priorities (all_calls outs)).
        rewrite (priorities_all_same _ _ Ha), Hp. reflexivity.
Qed.

(** Three bring-ups: real time granted, real time refused, and a driver
    that would grant it again. *)
Lemma inits_priority_never_raised_witness :
  exists outs,
    inits [ {| ic_env := platform accept_all; ic_base := sample_base;
               ic_alignSize := 0 |};
            {| ic_env := platform reject_realtime; ic_base := sample_base;
               ic_alignSize := 0 |};
            {| ic_env := platform accept_all; ic_base := sample_base;
               ic_alignSize := 0 |} ]
      queueDesc_init (d12_create 1) = Some outs
    /\ priorities (all_calls outs)
       = [D3D12_COMMAND_QUEUE_PRIORITY_GLOBAL_REALTIME;
          D3D12_COMMAND_QUEUE_PRIORITY_GLOBAL_REALTIME;
          D3D12_COMMAND_QUEUE_PRIORITY_HIGH;
          D3D12_COMMAND_QUEUE_PRIORITY_HIGH].
Proof.
  match goal with |- exists outs, inits ?l ?q ?t = _ /\ _ =>
    destruct (inits_priority_never_raised l q t eq_refl)
      as (outs & Hrun & _);
    assert (Hc : exists o, inits l q t = Some o
                           /\ priorities (all_calls o)
                              = [10000; 10000; 100; 100])
      by (eexists; split; [vm_compute; reflexivity | vm_compute; reflexivity])
  end.
  destruct Hc as (o & Ho & Hpr). rewrite Hrun in Ho. injection Ho as <-.
  exists outs. split; [exact Hrun | exact Hpr].
Defined.

(** ** The first frame *)

(** X13.  After [d12_create], and whatever [d12_init] did since, the first
    [d12_waitFrame] that succeeds reports format version 1 and records the
    format of its resource: a resource with rows of zero bytes does not
    get that far, so the first frame always differs from the zeroed
    [lastFormat]. *)
Theorem first_frame_version
    (n : nat) (env : InitEnv) (base alignSize : Z)
    (queueDesc : D3D12_COMMAND_QUEUE_DESC) (out : InitOutcome)
    (backend : D12Backend) (i : nat) (frame : CaptureFrame) (maxFrameSize : Z)
    (frame' : CaptureFrame) (t' : D12Interface) :
  d12_init env base alignSize queueDesc (d12_create n) = Some out ->
  d12_waitFrame backend i frame maxFrameSize (init_this out)
  = Some (CAPTURE_RESULT_OK, frame', t') ->
  frame_formatVer frame' = 1 /\ formatVer t' = 1
  /\ exists src, fetch backend i = Some src /\ lastFormat t' = res_desc src.
Proof.
  intros Hinit Hwait.
  destruct (init_keeps_format _ _ _ _ _ _ Hinit) as [Hlf Hfv].
  destruct (waitFrame_ok_inv _ _ _ _ _ _ _ Hwait)
    as (src & Hf & Hnz & Hv & _).
  pose proof (waitFrame_state _ _ _ _ _ _ _ _ Hwait) as Ht'.
  rewrite Hf, Hlf in Ht'. cbn [lastFormat d12_create] in Ht'.
  assert (Hchg : format_changed (res_desc src) zero_desc = true).
  { unfold format_changed. cbn [Width zero_desc].
    destruct (Z.eqb_spec (Width (res_desc src)) 0) as [E|_]; [|reflexivity].
    exfalso. apply Hnz. rewrite E. reflexivity. }
  rewrite Hchg in Ht'. rewrite Hv. subst t'.
  cbn [formatVer lastFormat bump_format]. rewrite Hfv.
  split; [reflexivity|]. split; [reflexivity|]. eauto.
Qed.

(** Two slots, a bring-up, a frame of 1280 by 720. *)
Lemma first_frame_version_witness :
  exists out frame' t',
    d12_init (platform accept_all) sample_base 0 queueDesc_init (d12_create 2)
    = Some out
    /\ d12_waitFrame (backend_with frame720) 1 frame_blank 8388608
         (init_this out) = Some (CAPTURE_RESULT_OK, frame', t')
    /\ frame_formatVer frame' = 1.
Proof.
  assert (Hrun : exists out frame' t',
             d12_init (platform accept_all) sample_base 0 queueDesc_init
               (d12_create 2) = Some out
             /\ d12_waitFrame (backend_with frame720) 1 frame_blank 8388608
                  (init_this out) = Some (CAPTURE_RESULT_OK, frame', t'))
    by (eexists; eexists; eexists;
        split; [vm_compute; reflexivity | vm_compute; reflexivity]).
  destruct Hrun as (out & frame' & t' & Hinit & Hwait).
  exists out, frame', t'. split; [exact Hinit|]. split; [exact Hwait|].
  apply (first_frame_version _ _ _ _ _ _ _ _ _ _ _ _ Hinit Hwait).
Defined.

(** ** Pointer shape relay: the event *)

(** X14.  [d12_updatePointer] hands over the event it was given with one
    change at most: the shape flag is kept only if the pool gave a buffer.
    It never sets the flag and never touches position or visibility.
    Without a new shape it asks the pool for nothing and copies nothing, and
    no copy is longer than the shape. *)
Theorem updatePointer_event
    (pool : PointerBuffer) (pointer : CapturePointer) (shape shapeSize : Z) :
  0 <= shapeSize ->
  let pointer' := fst (d12_updatePointer pool pointer shape shapeSize) in
  let evs := snd (d12_updatePointer pool pointer shape shapeSize) in
  shapeUpdate pointer' = shapeUpdate pointer && pb_ok pool
  /\ positionUpdate pointer' = positionUpdate pointer
  /\ pointer_x pointer' = pointer_x pointer
  /\ pointer_y pointer' = pointer_y pointer
  /\ visible pointer' = visible pointer
  /\ posted evs = [pointer']
  /\ (shapeUpdate pointer = false -> evs = [EvPostPointerBuffer pointer])
  /\ bytes_copied evs <= shapeSize.
Proof.
  intros Hs. cbv zeta. unfold d12_updatePointer.
  destruct pointer as [pu px py vis su].
  destruct su, (pb_ok pool); cbn; rewrite ?min_spec;
    repeat split; try discriminate; lia.
Qed.

(** A move without a new shape. *)
Lemma updatePointer_event_witness :
  d12_updatePointer pool_fail (clear_shapeUpdate shape_event) 0x2000 4096
  = (clear_shapeUpdate shape_event,
     [EvPostPointerBuffer (clear_shapeUpdate shape_event)]).
Proof.
  destruct (updatePointer_event pool_fail (clear_shapeUpdate shape_event)
              0x2000 4096 ltac:(discriminate))
    as (_ & _ & _ & _ & _ & Hp & Hev & _).
  specialize (Hev eq_refl).
  destruct (d12_updatePointer pool_fail (clear_shapeUpdate shape_event)
              0x2000 4096) as [p evs].
  cbn [fst snd] in Hp, Hev. subst evs. cbn in Hp. injection Hp as <-.
  reflexivity.
Defined.

(** ** Sizes *)

(** X15.  [d12_getFrame] passes [maxFrameSize] to the cache as an
    [unsigned]: it behaves for [maxFrameSize] as for its low 32 bits, so
    a request of 4 GiB and [k] bytes is served with a resource recorded, and
    placed, for [k] bytes. *)
Theorem getFrame_size_low_bits
    (get_data : FrameBuffer -> Z) (device : Device) (backend : D12Backend)
    (i : nat) (frameBuffer : FrameBuffer) (maxFrameSize : Z) (w : World) :
  d12_getFrame get_data device backend i frameBuffer maxFrameSize w
  = d12_getFrame get_data device backend i frameBuffer
      (maxFrameSize mod 2 ^ 32) w
  /\ forall (fb : FrameBufferSlot) (src : ID3D12Resource),
       frameBuffers (this w) !! i = Some fb -> fb_resource fb = None ->
       fetch backend i = Some src ->
       exists (result : CaptureResult) (w' : World) (rest : list Event)
              (hr : HRESULT),
         d12_getFrame get_data device backend i frameBuffer maxFrameSize w
         = Some (result, w')
         /\ trace w' = trace w
              ++ EvCreatePlacedResource
                   (to_uint64 (get_data frameBuffer - ivshmemBase (this w)))
                   (placed_desc (maxFrameSize mod 2 ^ 32))
                   D3D12_RESOURCE_STATE_COPY_DEST hr :: rest
         /\ exists fb' : FrameBufferSlot,
              frameBuffers (this w') !! i = Some fb'
              /\ fb_size fb' = maxFrameSize mod 2 ^ 32.
Proof.
  split.
  - unfold d12_getFrame, to_uint. rewrite Z.mod_mod by lia. reflexivity.
  - intros fb src Hi Hr Hf.
    destruct (frameBufferToResource_empty_slot get_data device i frameBuffer
                (to_uint maxFrameSize) w fb Hi Hr)
      as (res & w1 & Hc & [rest Htr] & _).
    destruct (frameBufferToResource_state _ _ _ _ _ _ _ _ Hc)
      as (fb0 & fb1 & Hi0 & Hthis & _ & Hcase).
    assert (Hsz : fb_size fb1 = to_uint maxFrameSize).
    { destruct Hcase as [[_ Hs]|[Hs _]]; [|exact Hs].
      apply is_setup_true in Hs. destruct Hs as ([r Hr0] & _).
      rewrite Hi in Hi0. injection Hi0 as <-. congruence. }
    assert (Hslot : frameBuffers (this w1) !! i = Some fb1).
    { rewrite Hthis. cbn. apply list_lookup_insert_eq.
      eapply lookup_lt_Some; eauto. }
    destruct (getFrame_defined get_data device backend i frameBuffer
                maxFrameSize w) as [[result w'] Hrun];
      [eapply lookup_lt_Some; eauto|].
    exists result, w'.
    destruct (getFrame_cases _ _ _ _ _ _ _ _ _ Hrun)
      as [(Hn & _)
         |[(? & w2 & _ & Hc2 & _ & ->)
          |[(? & ? & w2 & _ & Hc2 & _ & _ & Ht & Htr2)
           |(? & ? & w2 & _ & Hc2 & _ & _ & Ht & Htr2)]]];
      [congruence | | |];
      rewrite Hc in Hc2; injection Hc2 as -> ->.
    + eexists rest, _. split; [exact Hrun|]. split; [exact Htr|]. eauto.
    + eexists (rest ++ [_; _]), _. split; [exact Hrun|].
      split; [rewrite Htr2, Htr, <- app_assoc; reflexivity|].
      rewrite Ht. eauto.
    + eexists (rest ++ [_; _; _; _]), _. split; [exact Hrun|].
      split; [rewrite Htr2, Htr, <- app_assoc; reflexivity|].
      rewrite Ht. eauto.
Qed.

(** A first frame asked for with room for 4 GiB and 4096 bytes. *)
Lemma getFrame_size_low_bits_witness :
  exists (result : CaptureResult) (w' : World) (fb' : FrameBufferSlot),
    d12_getFrame sample_get_data device_ok (backend_ready CAPTURE_RESULT_OK)
      0 bufferA 4294971392 world_fresh = Some (result, w')
    /\ frameBuffers (this w') !! 0%nat = Some fb'
    /\ fb_size fb' = 4096.
Proof.
  destruct (getFrame_size_low_bits sample_get_data device_ok
              (backend_ready CAPTURE_RESULT_OK) 0 bufferA 4294971392
              world_fresh) as [_ H].
  destruct (H zero_slot frame1080 eq_refl eq_refl eq_refl)
    as (result & w' & _ & _ & Hrun & _ & fb' & Hslot & Hsz).
  exists result, w', fb'. auto.
Defined.

(** X16.  With a device whose resources have the description asked for, and
    a slot whose resource is at least as wide as its recorded size, a call
    that returns a resource returns one of at least the requested size, and
    leaves the slot in that state. *)
Theorem frameBufferToResource_large_enough
    (get_data : FrameBuffer -> Z) (device : Device) (i : nat)
    (frameBuffer : FrameBuffer) (size : Z) (w w' : World)
    (fb : FrameBufferSlot) (r : ID3D12Resource) :
  device_faithful device ->
  frameBuffers (this w) !! i = Some fb ->
  slot_covers fb ->
  d12_frameBufferToResource get_data device i frameBuffer size w
  = Some (Some r, w') ->
  size <= Width (res_desc r)
  /\ exists fb' : FrameBufferSlot,
       frameBuffers (this w') !! i = Some fb'
       /\ fb_resource fb' = Some r /\ slot_covers fb'.
Proof.
  intros Hdev Hi Hcov Hrun.
  destruct (is_setup fb frameBuffer size) eqn:Hs.
  - destruct (proj1 (is_setup_true _ _ _) Hs) as ([r0 Hr0] & _ & Hsz).
    rewrite (frameBufferToResource_hit _ _ _ _ _ _ fb r0 Hi Hr0 Hs) in Hrun.
    injection Hrun as <- <-.
    split; [specialize (Hcov r0 Hr0); lia|].
    exists fb. cbn [this emit]. auto.
  - pose proof (frameBufferToResource_miss get_data device i frameBuffer size
                  w fb Hi Hs) as H.
    cbv zeta in H. rewrite H in Hrun.
    destruct (FAILED _) eqn:Hf; [discriminate|].
    injection Hrun as <- <-.
    rewrite (Hdev _ _ Hf). cbn [Width placed_desc].
    split; [lia|]. eexists. cbn [this emit set_frameBuffer frameBuffers].
    split; [apply list_lookup_insert_eq; rewrite length_insert;
            eapply lookup_lt_Some; eauto|].
    split; [reflexivity|].
    intros r1 [= <-]. cbn [fb_size]. rewrite (Hdev _ _ Hf). cbn. lia.
Qed.

(** The cache of [world_cached], asked for [bufferB] and 8192 bytes. *)
Lemma frameBufferToResource_large_enough_witness :
  exists r w',
    d12_frameBufferToResource sample_get_data device_ok 0 bufferB 8192 world_cached
    = Some (Some r, w')
    /\ 8192 <= Width (res_desc r).
Proof.
  assert (Hrun : exists r w',
             d12_frameBufferToResource sample_get_data device_ok 0 bufferB 8192
               world_cached = Some (Some r, w'))
    by (eexists; eexists; vm_compute; reflexivity).
  destruct Hrun as (r & w' & Hrun). exists r, w'. split; [exact Hrun|].
  apply (frameBufferToResource_large_enough sample_get_data device_ok 0 bufferB
           8192 world_cached w' slotA r); [| reflexivity | | exact Hrun].
  - intros off desc _. reflexivity.
  - intros r0 [= <-]. cbn. lia.
Defined.
